(** * dotgraph: the DotGraph conversion facade (src/dotgraph.py)

    The facade owns a path to a 'dot' file and an optional HTML template and
    exposes four on-demand views (graph, dict, json, html), a render
    operation and a command-line entry point.  The development embeds the
    class as state-passing functions over an explicit world (file system,
    clock, heap of instances, class attributes, standard output) and proves
    the properties of the specification about them.

    The collaborators the class calls (the dot parser, the node-link adapter,
    the JSON encoder, the notebook HTML wrapper, the clock and the float
    hash) are not part of dotgraph.py.  The parser, the clock, the hash and
    what the operating system makes of a path are fields of the [Host] class
    below; the others are modelled here and each model says where it comes
    from. *)

From stdpp Require Import gmap strings list fin_maps pretty.
From Stdlib Require Import Ascii String ZArith.

#[local] Set Warnings "-register-all".
#[local] Open Scope string_scope.

(** ** Outcomes of evaluating Python code *)

(** The exceptions that the modelled code can raise. *)
Inductive exn : Type :=
  | IOError (path : string)        (* open() of a path that cannot be opened *)
  | ParseError (msg : string)      (* raised by the dot parser *)
  | KeyError (key : string)        (* d[key], %(key)s with a missing key *)
  | AttributeError (attr : string) (* obj.attr with no such attribute *)
  | TypeError (msg : string)
  | ValueError (msg : string)
  | IndexError (msg : string).

(** An evaluation returns a value, raises, or leaves the fragment of Python
    that this development models ([Unmodelled]: nothing is asserted about it). *)
Inductive outcome (A : Type) : Type :=
  | Ok (a : A)
  | Raise (e : exn)
  | Unmodelled.
Arguments Ok {A} a.
Arguments Raise {A} e.
Arguments Unmodelled {A}.

Definition outcome_bind {A B} (o : outcome A) (k : A → outcome B) : outcome B :=
  match o with
  | Ok a => k a
  | Raise e => Raise e
  | Unmodelled => Unmodelled
  end.

Definition outcome_map {A B} (f : A → B) (o : outcome A) : outcome B :=
  outcome_bind o (λ a, Ok (f a)).

Definition is_ok {A} (o : outcome A) : bool :=
  match o with Ok _ => true | _ => false end.

(** ** Characters and text *)

Definition dquote : ascii := ascii_of_nat 34.
Definition backslash : ascii := ascii_of_nat 92.
Definition newline : ascii := ascii_of_nat 10.
Definition dq : string := String dquote "".
Definition nl : string := String newline "".

Definition is_ws (c : ascii) : bool :=
  let n := N_of_ascii c in
  ((n =? 32) || (n =? 9) || (n =? 10) || (n =? 13))%N.

Definition digit_val (c : ascii) : option N :=
  let n := N_of_ascii c in
  if ((48 <=? n) && (n <=? 57))%N then Some (n - 48)%N else None.

Fixpoint skip_ws (s : string) : string :=
  match s with
  | String c r => if is_ws c then skip_ws r else s
  | "" => ""
  end.

Fixpoint strip_prefix (p s : string) : option string :=
  match p with
  | "" => Some s
  | String a p' =>
      match s with
      | String b s' => if Ascii.eqb a b then strip_prefix p' s' else None
      | "" => None
      end
  end.

(** [s.startswith(prefix)] *)
Definition starts_with (prefix s : string) : bool :=
  match strip_prefix prefix s with Some _ => true | None => false end.

(** [substring_of p s]: [p] occurs in [s] (Python's [p in s]). *)
Fixpoint substring_of (p s : string) : bool :=
  match strip_prefix p s with
  | Some _ => true
  | None =>
      match s with
      | String _ s' => substring_of p s'
      | "" => false
      end
  end.

Fixpoint join (sep : string) (l : list string) : string :=
  match l with
  | [] => ""
  | [x] => x
  | x :: xs => x +:+ sep +:+ join sep xs
  end.

(** ** Python dictionaries with string keys

    Insertion-ordered association lists without duplicate keys;
    [dict_set] is [d[k] = v]: it overwrites in place or appends. *)

Fixpoint dict_get {V} (k : string) (d : list (string * V)) : option V :=
  match d with
  | [] => None
  | (k', v) :: d' => if String.eqb k k' then Some v else dict_get k d'
  end.

Fixpoint dict_set {V} (k : string) (v : V) (d : list (string * V)) : list (string * V) :=
  match d with
  | [] => [(k, v)]
  | (k', v') :: d' =>
      if String.eqb k k' then (k, v) :: d' else (k', v') :: dict_set k v d'
  end.

(** [dict(pairs)]: later pairs override earlier ones. *)
Definition dict_of_pairs {V} (ps : list (string * V)) : list (string * V) :=
  foldl (λ d kv, dict_set kv.1 kv.2 d) [] ps.

(** ** JSON values *)

(** The values the node-link representation is made of: null, booleans,
    integers, strings, lists and string-keyed dictionaries (all of them can
    be serialized).  Characters are the code points below 256. *)
Inductive jvalue : Type :=
  | JNull
  | JBool (b : bool)
  | JInt (z : Z)
  | JStr (s : string)
  | JArr (l : list jvalue)
  | JObj (m : list (string * jvalue)).

(** Every dictionary inside the value has pairwise different keys, as a
    Python dict has. *)
Fixpoint json_wf (v : jvalue) : Prop :=
  match v with
  | JArr l => foldr (λ x acc, json_wf x ∧ acc) True l
  | JObj m => NoDup (m.*1) ∧ foldr (λ kv acc, json_wf kv.2 ∧ acc) True m
  | _ => True
  end.

(** ** The JSON encoder *)

(** Modelled from the spec: [json.JSONEncoder] is Python's standard-library
    encoder, not part of dotgraph.py.  Section 4.1 (GetJSON) speaks of "a
    (lazily constructed, instance-scoped) JSON encoder"; the object is built
    without options and has no state of its own. *)
Inductive JSONEncoder : Type := MkJSONEncoder.

Definition item_separator : string := ", ".
Definition key_separator : string := ": ".

Definition hex_digit (n : N) : ascii :=
  ascii_of_N (if (n <? 10)%N then 48 + n else 87 + n).

Definition escape_char (c : ascii) : string :=
  let n := N_of_ascii c in
  if (n =? 34)%N then String backslash dq
  else if (n =? 92)%N then String backslash (String backslash "")
  else if (n =? 10)%N then String backslash "n"
  else if (n =? 13)%N then String backslash "r"
  else if (n =? 9)%N then String backslash "t"
  else if (n =? 8)%N then String backslash "b"
  else if (n =? 12)%N then String backslash "f"
  else if ((n <? 32) || (126 <? n))%N then
    String backslash
      (String "u" (String "0" (String "0"
         (String (hex_digit (n / 16)) (String (hex_digit (n mod 16)) "")))))
  else String c "".

Fixpoint escape (s : string) : string :=
  match s with
  | "" => ""
  | String c r => escape_char c +:+ escape r
  end.

Definition encode_string (s : string) : string := dq +:+ escape s +:+ dq.

(** Modelled from the spec: the text of [JSONEncoder.encode], which section
    4.1 only describes as "encodes [the mapping] ... returns the string".
    The text is the one of the encoder's default options: items separated by
    a comma and a space, keys by a colon and a space, strings in double
    quotes with every character outside the printable ASCII range escaped. *)
Fixpoint encode (v : jvalue) : string :=
  match v with
  | JNull => "null"
  | JBool true => "true"
  | JBool false => "false"
  | JInt z => pretty z
  | JStr s => encode_string s
  | JArr l => "[" +:+ join item_separator (map encode l) +:+ "]"
  | JObj m =>
      "{" +:+ join item_separator
                (map (λ kv, encode_string kv.1 +:+ key_separator +:+ encode kv.2) m)
          +:+ "}"
  end.

Definition JSONEncoder_encode (e : JSONEncoder) (v : jvalue) : string := encode v.

(** ** The JSON decoder *)

Definition hex_val (c : ascii) : option N :=
  let n := N_of_ascii c in
  if ((48 <=? n) && (n <=? 57))%N then Some (n - 48)%N
  else if ((97 <=? n) && (n <=? 102))%N then Some (n - 87)%N
  else if ((65 <=? n) && (n <=? 70))%N then Some (n - 55)%N
  else None.

Definition hex4 (a b c d : ascii) : option N :=
  match hex_val a, hex_val b, hex_val c, hex_val d with
  | Some x, Some y, Some z, Some w => Some (((x * 16 + y) * 16 + z) * 16 + w)%N
  | _, _, _, _ => None
  end.

Definition unescape (e : ascii) : option ascii :=
  let n := N_of_ascii e in
  if (n =? 34)%N then Some dquote
  else if (n =? 92)%N then Some backslash
  else if (n =? 47)%N then Some "/"%char
  else if (n =? 98)%N then Some (ascii_of_N 8)
  else if (n =? 102)%N then Some (ascii_of_N 12)
  else if (n =? 110)%N then Some newline
  else if (n =? 114)%N then Some (ascii_of_N 13)
  else if (n =? 116)%N then Some (ascii_of_N 9)
  else None.

Definition push_char (c : ascii) (o : option (string * string)) : option (string * string) :=
  match o with
  | Some (s, r) => Some (String c s, r)
  | None => None
  end.

(** The characters of a string literal after its opening quote; returns the
    decoded string and what follows the closing quote. *)
Fixpoint parse_chars (s : string) : option (string * string) :=
  match s with
  | "" => None
  | String c r =>
      if Ascii.eqb c dquote then Some ("", r)
      else if Ascii.eqb c backslash then
        match r with
        | "" => None
        | String e r1 =>
            if Ascii.eqb e "u" then
              match r1 with
              | String h1 (String h2 (String h3 (String h4 r2))) =>
                  match hex4 h1 h2 h3 h4 with
                  | Some n =>
                      if (n <? 256)%N then push_char (ascii_of_N n) (parse_chars r2)
                      else None
                  | None => None
                  end
              | _ => None
              end
            else
              match unescape e with
              | Some ch => push_char ch (parse_chars r1)
              | None => None
              end
        end
      else if (N_of_ascii c <? 32)%N then None
      else push_char c (parse_chars r)
  end.

Fixpoint read_nat (acc : N) (s : string) : N * string :=
  match s with
  | "" => (acc, "")
  | String c r =>
      match digit_val c with
      | Some d => read_nat (acc * 10 + d) r
      | None => (acc, s)
      end
  end.

(** An unsigned integer literal: a lone 0, or a non-zero digit and more digits. *)
Definition parse_nat (s : string) : option (N * string) :=
  match s with
  | "" => None
  | String c r =>
      match digit_val c with
      | Some 0%N => Some (0%N, r)
      | Some d => Some (read_nat d r)
      | None => None
      end
  end.

Definition starts_fraction (s : string) : bool :=
  match s with
  | String c _ => Ascii.eqb c "." || Ascii.eqb c "e" || Ascii.eqb c "E"
  | "" => false
  end.

Definition parse_int (s : string) : option (Z * string) :=
  let signed := match s with
                | String c r => if Ascii.eqb c "-" then Some r else None
                | "" => None
                end in
  match parse_nat (default s signed) with
  | Some (n, r) =>
      if starts_fraction r then None
      else Some (match signed with Some _ => (- Z.of_N n)%Z | None => Z.of_N n end, r)
  | None => None
  end.

Definition parse_literal (s : string) : option (jvalue * string) :=
  match strip_prefix "null" s with
  | Some r => Some (JNull, r)
  | None =>
  match strip_prefix "true" s with
  | Some r => Some (JBool true, r)
  | None =>
  match strip_prefix "false" s with
  | Some r => Some (JBool false, r)
  | None =>
  match parse_int s with
  | Some (z, r) => Some (JInt z, r)
  | None => None
  end end end end.

(** Modelled from the spec: "parsed back as JSON" (section 8) names Python's
    [json.loads], not part of dotgraph.py.  A recursive-descent reader of the
    JSON grammar over the values above; text that is not JSON, and JSON
    outside the model (fractions, exponents, code points from 256 on), is
    [None].  A dictionary is built pair by pair, so a repeated key keeps its
    last value.  [fuel] bounds the nesting and the number of items read. *)
Fixpoint parse_value (fuel : nat) (s : string) : option (jvalue * string) :=
  match fuel with
  | O => None
  | S fuel' =>
      match skip_ws s with
      | "" => None
      | String c r =>
          if Ascii.eqb c dquote then
            match parse_chars r with
            | Some (str, r') => Some (JStr str, r')
            | None => None
            end
          else if Ascii.eqb c "[" then
            match strip_prefix "]" (skip_ws r) with
            | Some r' => Some (JArr [], r')
            | None =>
                match parse_elems fuel' r with
                | Some (l, r') => Some (JArr l, r')
                | None => None
                end
            end
          else if Ascii.eqb c "{" then
            match strip_prefix "}" (skip_ws r) with
            | Some r' => Some (JObj [], r')
            | None =>
                match parse_members fuel' r with
                | Some (ps, r') => Some (JObj (dict_of_pairs ps), r')
                | None => None
                end
            end
          else parse_literal (String c r)
      end
  end
with parse_elems (fuel : nat) (s : string) : option (list jvalue * string) :=
  match fuel with
  | O => None
  | S fuel' =>
      match parse_value fuel' s with
      | None => None
      | Some (v, r) =>
          match strip_prefix "," (skip_ws r) with
          | Some r' =>
              match parse_elems fuel' r' with
              | Some (vs, r'') => Some (v :: vs, r'')
              | None => None
              end
          | None =>
              match strip_prefix "]" (skip_ws r) with
              | Some r' => Some ([v], r')
              | None => None
              end
          end
      end
  end
with parse_members (fuel : nat) (s : string) : option (list (string * jvalue) * string) :=
  match fuel with
  | O => None
  | S fuel' =>
      match skip_ws s with
      | String c r =>
          if Ascii.eqb c dquote then
            match parse_chars r with
            | None => None
            | Some (k, r1) =>
                match strip_prefix ":" (skip_ws r1) with
                | Some r2 =>
                    match parse_value fuel' r2 with
                    | None => None
                    | Some (v, r3) =>
                        match strip_prefix "," (skip_ws r3) with
                        | Some r4 =>
                            match parse_members fuel' r4 with
                            | Some (ps, r5) => Some ((k, v) :: ps, r5)
                            | None => None
                            end
                        | None =>
                            match strip_prefix "}" (skip_ws r3) with
                            | Some r4 => Some ([(k, v)], r4)
                            | None => None
                            end
                        end
                    end
                | None => None
                end
            end
          else None
      | "" => None
      end
  end.

(** Modelled from the spec: [json.loads] itself: one value, then nothing but
    white space. *)
Definition loads (s : string) : option jvalue :=
  match parse_value (S (String.length s)) s with
  | Some (v, r) => match skip_ws r with "" => Some v | _ => None end
  | None => None
  end.

(** ** Graphs and the node-link adapter *)

(** Modelled from the spec: the graph object that [networkx.read_dot]
    returns (section 3: "a directed graph with nodes (each an identifier plus
    an attribute mapping) and edges (each a source id, target id, and
    attribute mapping)"); networkx is not part of dotgraph.py.  Attributes
    are the quoted key="value" pairs of the dot text (section 6). *)
Record nxgraph : Type := {
  is_directed : bool;
  is_multigraph : bool;
  graph_attr : gmap string string;
  node : list (string * gmap string string);
  edges : list (string * string * gmap string string);
}.

Definition attr_items (a : gmap string string) : list (string * jvalue) :=
  map (λ kv, (kv.1, JStr kv.2)) (map_to_list a).

Fixpoint mapM {A B} (f : A → outcome B) (l : list A) : outcome (list B) :=
  match l with
  | [] => Ok []
  | x :: xs =>
      outcome_bind (f x) (λ y, outcome_bind (mapM f xs) (λ ys, Ok (y :: ys)))
  end.

(** [mapping[u]] *)
Definition index_lookup (mapping : list (string * nat)) (u : string) : outcome nat :=
  match dict_get u mapping with
  | Some i => Ok i
  | None => Raise (KeyError u)
  end.

(** Modelled from the spec: [json_graph.node_link_data] is networkx's
    adapter, not part of dotgraph.py.  Section 3 describes its result as "an
    ordered sequence of node records (each carrying its attributes plus
    original identifier) and an ordered sequence of link records (each
    carrying integer indices into the node sequence for source and target,
    plus edge attributes)", section 6 gives the shape
    {"directed", "multigraph", "graph", "nodes", "links"}.  Each node is
    numbered by its position ([dict(zip(G, count()))]) and a link looks its
    two end points up in that numbering. *)
Definition node_link_data (g : nxgraph) : outcome jvalue :=
  let ids := (node g).*1 in
  let mapping := dict_of_pairs (zip ids (seq 0 (List.length ids))) in
  let nodes :=
    map (λ n, JObj (dict_set "id" (JStr n.1) (dict_of_pairs (attr_items n.2))))
        (node g) in
  outcome_bind
    (mapM (λ e : string * string * gmap string string,
             outcome_bind (index_lookup mapping e.1.1) (λ s,
             outcome_bind (index_lookup mapping e.1.2) (λ t,
             Ok (JObj (dict_set "target" (JInt (Z.of_nat t))
                        (dict_set "source" (JInt (Z.of_nat s))
                           (dict_of_pairs (attr_items e.2))))))))
          (edges g))
    (λ links,
       Ok (JObj [("directed", JBool (is_directed g));
                 ("multigraph", JBool (is_multigraph g));
                 ("graph", JObj (dict_of_pairs (attr_items (graph_attr g))));
                 ("nodes", JArr nodes);
                 ("links", JArr links)])).

(** ** String formatting: [template % mapping]

    Python's [%] operator on a string with a dictionary of strings on its
    right.  The scanner copies ordinary characters, turns [%%] into [%] and
    replaces [%(key)s] by the value of [key].  The key is looked up as soon
    as its closing parenthesis is read (parentheses inside a key nest); a
    missing key is a [KeyError], a format that ends inside a directive a
    [ValueError].  Flags, widths, precisions, conversions other than [s] and
    directives without a key are outside the model. *)
Inductive fmt_mode : Type :=
  | Text
  | AfterPercent
  | InKey (depth : nat) (key : string)
  | AfterKey (val : string).

Fixpoint format_from (m : fmt_mode) (fmt : string) (d : gmap string string) : outcome string :=
  match fmt with
  | "" =>
      match m with
      | Text => Ok ""
      | InKey _ _ => Raise (ValueError "incomplete format key")
      | _ => Raise (ValueError "incomplete format")
      end
  | String c r =>
      match m with
      | Text =>
          if Ascii.eqb c "%" then format_from AfterPercent r d
          else outcome_map (String c) (format_from Text r d)
      | AfterPercent =>
          if Ascii.eqb c "%" then outcome_map (String c) (format_from Text r d)
          else if Ascii.eqb c "(" then format_from (InKey 1 "") r d
          else Unmodelled
      | InKey depth key =>
          if Ascii.eqb c ")" then
            match depth with
            | 1 =>
                match d !! key with
                | Some v => format_from (AfterKey v) r d
                | None => Raise (KeyError key)
                end
            | _ => format_from (InKey (pred depth) (key +:+ String c "")) r d
            end
          else if Ascii.eqb c "(" then
            format_from (InKey (S depth) (key +:+ String c "")) r d
          else format_from (InKey depth (key +:+ String c "")) r d
      | AfterKey v =>
          if Ascii.eqb c "s" then outcome_map (String.append v) (format_from Text r d)
          else Unmodelled
      end
  end.

Definition pyformat (fmt : string) (d : gmap string string) : outcome string :=
  format_from Text fmt d.

(** ** The host: collaborators that dotgraph.py calls and does not contain *)
Class Host : Type := {
  (** the values returned by [time.time()] *)
  float : Type;
  (** [hash] on such a value *)
  hash_float : float → Z;
  (** the successive readings of the clock *)
  clock : nat → float;
  (** the dot parser of [networkx.read_dot] on the text of a file *)
  parse_dot : string → outcome nxgraph;
  (** what that parser prints on standard output for a text it rejects *)
  parse_diagnostic : string → string;
  (** [open(path, 'w')] succeeds: the path is not empty, its directory
      exists, and it names neither a directory nor a file that is
      read-only *)
  writable : string → bool;
  (** the two paths name one file *)
  same_file : string → string → bool;
  (** the path names something that exists and cannot be read as a file: a
      directory, a file without read permission *)
  unreadable : string → bool;
}.

(** ** The world: what the program reads and changes *)

(** Attribute values of a DotGraph instance. *)
Inductive value : Type :=
  | VStr (s : string)
  | VEncoder (e : JSONEncoder).

Record world : Type := {
  (** the files that exist: the text of each, under one path that names it *)
  fs : gmap string string;
  (** how many times the clock was read *)
  ticks : nat;
  (** the attribute dictionary of every live instance *)
  heap : gmap nat (gmap string value);
  (** the data attributes of the class DotGraph *)
  class_attrs : gmap string value;
  stdout : string;
}.

Definition M (A : Type) : Type := world → outcome A * world.

Definition ret {A} (a : A) : M A := λ w, (Ok a, w).
Definition raise {A} (e : exn) : M A := λ w, (Raise e, w).
Definition bind {A B} (m : M A) (k : A → M B) : M B :=
  λ w, match m w with
       | (Ok a, w') => k a w'
       | (Raise e, w') => (Raise e, w')
       | (Unmodelled, w') => (Unmodelled, w')
       end.
Definition lift {A} (o : outcome A) : M A := λ w, (o, w).

Notation "'let*' x := m 'in' k" := (bind m (λ x, k))
  (at level 10, x name, m at level 100, k at level 200).
Notation "m ;;; k" := (bind m (λ _, k))
  (at level 100, k at level 200, right associativity).

Definition set_fs (f : gmap string string) (w : world) : world :=
  {| fs := f; ticks := ticks w; heap := heap w;
     class_attrs := class_attrs w; stdout := stdout w |}.
Definition set_ticks (n : nat) (w : world) : world :=
  {| fs := fs w; ticks := n; heap := heap w;
     class_attrs := class_attrs w; stdout := stdout w |}.
Definition set_heap (h : gmap nat (gmap string value)) (w : world) : world :=
  {| fs := fs w; ticks := ticks w; heap := h;
     class_attrs := class_attrs w; stdout := stdout w |}.
Definition set_stdout (s : string) (w : world) : world :=
  {| fs := fs w; ticks := ticks w; heap := heap w;
     class_attrs := class_attrs w; stdout := s |}.

(** [time.time()] *)
Definition time_time `{Host} : M float :=
  λ w, (Ok (clock (ticks w)), set_ticks (S (ticks w)) w).

(** [obj.attr]: the instance's own attributes first, then the class's. *)
Definition getattr (self : nat) (attr : string) : M value :=
  λ w, match heap w !! self with
       | None => (Raise (AttributeError attr), w)
       | Some o =>
           match o !! attr with
           | Some v => (Ok v, w)
           | None =>
               match class_attrs w !! attr with
               | Some v => (Ok v, w)
               | None => (Raise (AttributeError attr), w)
               end
           end
       end.

Definition hasattr (self : nat) (attr : string) : M bool :=
  λ w, (Ok (is_ok (getattr self attr w).1), w).

(** [obj.attr = v]: always on the instance. *)
Definition setattr (self : nat) (attr : string) (v : value) : M unit :=
  λ w, match heap w !! self with
       | None => (Raise (AttributeError attr), w)
       | Some o => (Ok (), set_heap (<[self := <[attr := v]> o]> (heap w)) w)
       end.

(** The path under which [files] holds the file that [path] names: [path]
    itself, or else another path of the same file. *)
Definition entry_of `{Host} (files : gmap string string) (path : string) : option string :=
  match files !! path with
  | Some _ => Some path
  | None => head (List.filter (same_file path) (map_to_list files).*1)
  end.

(** The text of the file that [path] names, when that file exists. *)
Definition read_file `{Host} (files : gmap string string) (path : string) : option string :=
  match entry_of files path with
  | Some entry => files !! entry
  | None => None
  end.

(** [networkx.read_dot(path)]: opens the file and hands its text to the
    parser, which prints its diagnostic on standard output when it rejects
    the text. *)
Definition read_dot `{Host} (path : string) : M nxgraph :=
  λ w, match read_file (fs w) path with
       | None => (Raise (IOError path), w)
       | Some text =>
           (parse_dot text,
            if is_ok (parse_dot text) then w
            else set_stdout (stdout w +:+ parse_diagnostic text) w)
       end.

(** [open(path, 'w')]: fails when the path cannot be opened for writing;
    otherwise the file that the path names exists and is empty from here on.
    The file object is the entry of that file. *)
Definition open_w `{Host} (path : string) : M string :=
  λ w, if writable path then
         let fp := default path (entry_of (fs w) path) in
         (Ok fp, set_fs (<[fp := ""]> (fs w)) w)
       else (Raise (IOError path), w).

(** [fp.write(s)] *)
Definition file_write (fp : string) (s : string) : M unit :=
  λ w, (Ok (), set_fs (<[fp := default "" (fs w !! fp) +:+ s]> (fs w)) w).

(** [sys.stdout.write(s)] *)
Definition stdout_write (s : string) : M unit :=
  λ w, (Ok (), set_stdout (stdout w +:+ s) w).

(** Modelled from the spec: [display.HTML] is IPython's, not part of
    dotgraph.py.  Section 4.1 (Render) describes "a notebook-displayable HTML
    object" whose string representation is the HTML text it wraps.  IPython's
    constructor does not wrap every string as it is: a string that starts
    with 'http' is taken for a URL and a string that is the path of
    something that exists for a file name, and the object then holds what
    is read from there.  Fetching a URL is outside this development. *)
Record HTML : Type := { data : string }.

(** [os.path.exists(path)] *)
Definition path_exists `{Host} (files : gmap string string) (path : string) : bool :=
  match read_file files path with
  | Some _ => true
  | None => unreadable path
  end.

(** [display.HTML(data=text)] *)
Definition display_HTML `{Host} (text : string) : M HTML :=
  λ w, if starts_with "http" text then (Unmodelled, w)
       else if path_exists (fs w) text then
         match read_file (fs w) text with
         | Some contents => (Ok {| data := contents |}, w)
         | None => (Raise (IOError text), w)
         end
       else (Ok {| data := text |}, w).

Definition _repr_html_ (h : HTML) : string := data h.

(** ** class DotGraph *)
Module DotGraph.

(** The lines of the class attribute [_template] (the text between the
    triple quotes, split at its line breaks). *)
Definition _template_lines : list string := [
    "";
    "    <div id=" +:+ dq +:+ "%(uniqueID)s" +:+ dq +:+ "></div>";
    "    <style>";
    "    .node {";
    "        stroke-width: 1.5px;";
    "    }";
    "    .node text {";
    "        color: black;";
    "        font: 10px sans-serif;";
    "    }";
    "    .link {";
    "        fill: none;";
    "        stroke: #bbb;";
    "    }";
    "    </style>";
    "";
    "    <script>";
    "    var graph = %(JSONData)s;";
    "    ";
    "    require.config({paths: {d3: " +:+ dq +:+ "https://d3js.org/d3.v3.min" +:+ dq +:+ "}});";
    "    ";
    "    require([" +:+ dq +:+ "d3" +:+ dq +:+ "], function(d3) {";
    "    ";
    "        var width = 1000, height = 450;";
    "        var rwidth = 150, rheight=20;";
    "        var rr = 10;";
    "        var color = d3.scale.category10();";
    "        var domain = [0, 1, 2, 3];";
    "        color.domain(domain);";
    "        ";
    "        var force = d3.layout.force()";
    "            .charge(-200)";
    "            .linkDistance(50)";
    "            .linkStrength(2)";
    "            .size([width, height]);";
    "            ";
    "        var svg = d3.select(" +:+ dq +:+ "#%(uniqueID)s" +:+ dq +:+ ").select(" +:+ dq +:+ "svg" +:+ dq +:+ ");";
    "        ";
    "        if (svg.empty()) {";
    "            svg = d3.select(" +:+ dq +:+ "#%(uniqueID)s" +:+ dq +:+ ").append(" +:+ dq +:+ "svg" +:+ dq +:+ ")";
    "                        .attr(" +:+ dq +:+ "width" +:+ dq +:+ ", width)";
    "                        .attr(" +:+ dq +:+ "height" +:+ dq +:+ ", height);";
    "        }";
    "        ";
    "        var nodes = graph.nodes.slice(),";
    "        links = [],";
    "        bilinks = [];";
    "      ";
    "        graph.links.forEach(function(link) {";
    "            var s = nodes[link.source],";
    "            t = nodes[link.target],";
    "            i = {}; // intermediate node";
    "            nodes.push(i);";
    "            links.push({source: s, target: i}, {source: i, target: t});";
    "            bilinks.push([s, i, t]);";
    "        });";
    "        ";
    "        force.nodes(nodes)";
    "            .links(links)";
    "            .start();";
    "            ";
    "        var link = svg.selectAll(" +:+ dq +:+ ".link" +:+ dq +:+ ")";
    "            .data(bilinks)";
    "            .enter().append(" +:+ dq +:+ "path" +:+ dq +:+ ")";
    "            .attr(" +:+ dq +:+ "class" +:+ dq +:+ ", " +:+ dq +:+ "link" +:+ dq +:+ ");";
    "            ";
    "        var node = svg.selectAll(" +:+ dq +:+ ".node" +:+ dq +:+ ")";
    "            .data(graph.nodes)";
    "            .enter().append(" +:+ dq +:+ "g" +:+ dq +:+ ")";
    "            .attr(" +:+ dq +:+ "class" +:+ dq +:+ ", " +:+ dq +:+ "node" +:+ dq +:+ ")";
    "            .call(force.drag);";
    "            ";
    "        node.append(" +:+ dq +:+ "rect" +:+ dq +:+ ")";
    "            .attr(" +:+ dq +:+ "x" +:+ dq +:+ ", -rwidth/2)";
    "            .attr(" +:+ dq +:+ "y" +:+ dq +:+ ", -rheight/2)";
    "            .attr(" +:+ dq +:+ "width" +:+ dq +:+ ", rwidth)";
    "            .attr(" +:+ dq +:+ "height" +:+ dq +:+ ", rheight)";
    "            .attr(" +:+ dq +:+ "rx" +:+ dq +:+ ", rr)";
    "            .attr(" +:+ dq +:+ "ry" +:+ dq +:+ ", rr)";
    "            .style(" +:+ dq +:+ "fill" +:+ dq +:+ ", " +:+ dq +:+ "white" +:+ dq +:+ ")";
    "            .style(" +:+ dq +:+ "stroke" +:+ dq +:+ ", " +:+ dq +:+ "black" +:+ dq +:+ ");";
    "        ";
    "        node.append(" +:+ dq +:+ "text" +:+ dq +:+ ")";
    "            .attr(" +:+ dq +:+ "dx" +:+ dq +:+ ", 0)";
    "            .attr(" +:+ dq +:+ "dy" +:+ dq +:+ ", 3)";
    "            .attr(" +:+ dq +:+ "text-anchor" +:+ dq +:+ ", " +:+ dq +:+ "middle" +:+ dq +:+ ")";
    "            .text(function(d) { return d.label; });";
    "            ";
    "        node.append(" +:+ dq +:+ "title" +:+ dq +:+ ")";
    "            .text(function(d) { return d.label; });";
    "            ";
    "        force.on(" +:+ dq +:+ "tick" +:+ dq +:+ ", function() {";
    "            link.attr(" +:+ dq +:+ "d" +:+ dq +:+ ", function(d) {";
    "                return " +:+ dq +:+ "M" +:+ dq +:+ " + d[0].x + " +:+ dq +:+ "," +:+ dq +:+ " + d[0].y + " +:+ dq +:+ "S" +:+ dq +:+ " + d[1].x + " +:+ dq +:+ "," +:+ dq +:+ " + d[1].y + " +:+ dq +:+ " " +:+ dq +:+ " + d[2].x + " +:+ dq +:+ "," +:+ dq +:+ " + d[2].y;";
    "            });";
    "            ";
    "            node.attr(" +:+ dq +:+ "transform" +:+ dq +:+ ", function(d) { return " +:+ dq +:+ "translate(" +:+ dq +:+ " + d.x + " +:+ dq +:+ "," +:+ dq +:+ " + d.y + " +:+ dq +:+ ")" +:+ dq +:+ "; });";
    "        });";
    "    });";
    "    </script>";
    "    "
].

Definition _template : string := join nl _template_lines.

(** The data attributes that the class statement defines. *)
Definition class_dict : gmap string value :=
  {[ "_template" := VStr _template ]}.

(** [def __init__(self, infile, template=None)] *)
Definition __init__ (self : nat) (infile : string) (template : option string) : M unit :=
  (match template with
   | Some t => setattr self "_template" (VStr t)
   | None => ret ()
   end) ;;;
  setattr self "infile" (VStr infile).

(** [DotGraph(infile, template)]: a new instance with no attribute of its
    own, then [__init__]. *)
Definition new (infile : string) (template : option string) : M nat :=
  λ w, let self := fresh (dom (heap w)) in
       (__init__ self infile template ;;; ret self)
         (set_heap (<[self := ∅]> (heap w)) w).

(** [self.infile] as the path handed to [read_dot] *)
Definition as_str (v : value) : M string :=
  match v with
  | VStr s => ret s
  | VEncoder _ => raise (TypeError "expected a string")
  end.

(** [@property graph] *)
Definition graph `{Host} (self : nat) : M nxgraph :=
  let* infile := getattr self "infile" in
  let* path := as_str infile in
  read_dot path.

(** [@property dict] *)
Definition dict `{Host} (self : nat) : M jvalue :=
  let* g := graph self in
  lift (node_link_data g).

(** [@property json].  In [self._jenc.encode(self.dict)] the method is
    looked up first, then the argument is evaluated, then the call is made;
    a string has an [encode] method too, which does not accept a
    dictionary. *)
Definition json `{Host} (self : nat) : M string :=
  let* has := hasattr self "_jenc" in
  (if negb has then setattr self "_jenc" (VEncoder MkJSONEncoder) else ret ()) ;;;
  let* jenc := getattr self "_jenc" in
  let* d := dict self in
  match jenc with
  | VEncoder e => ret (JSONEncoder_encode e d)
  | VStr _ => raise (TypeError "encode() argument 1 must be str, not dict")
  end.

(** The dictionary display [formatDict] of [html]. *)
Definition formatDict `{Host} (self : nat) : M (gmap string string) :=
  let* now := time_time in
  let uniqueID := "Graph" +:+ pretty (hash_float now) in  (* 'Graph%s' % hash(now) *)
  let* JSONData := json self in
  ret (<["JSONData" := JSONData]> (<["uniqueID" := uniqueID]> ∅)).

(** [@property html] *)
Definition html `{Host} (self : nat) : M string :=
  let* fd := formatDict self in
  let* template := getattr self "_template" in
  match template with
  | VStr t => lift (pyformat t fd)
  | VEncoder _ => raise (TypeError "unsupported operand type(s) for %")
  end.

(** [def render(self)] *)
Definition render `{Host} (self : nat) : M string :=
  let* h := html self in
  let* obj := display_HTML h in
  ret (_repr_html_ obj).

End DotGraph.

(** ** The command line: [if __name__ == '__main__'] *)

(** [sys.argv[i]] *)
Definition argv_get (argv : list string) (i : nat) : M string :=
  match argv !! i with
  | Some a => ret a
  | None => raise (IndexError "list index out of range")
  end.

Definition main `{Host} (argv : list string) : M unit :=
  let* infile := argv_get argv 1 in
  let* dg := DotGraph.new infile None in
  if (2 <? List.length argv)%nat then
    let* outfile := argv_get argv 2 in
    let* fp := open_w outfile in
    let* h := DotGraph.html dg in
    file_write fp h
  else
    let* h := DotGraph.html dg in
    stdout_write h.

(** The exit status of the process: 0 when the script runs to its end, 1 when
    an exception escapes. *)
Definition exit_status {A} (o : outcome A) : option Z :=
  match o with
  | Ok _ => Some 0%Z
  | Raise _ => Some 1%Z
  | Unmodelled => None
  end.

(** The world in which the interpreter starts the script: the class
    statement has run, no instance exists, nothing was printed. *)
Definition initial_world (files : gmap string string) : world :=
  {| fs := files; ticks := 0; heap := ∅;
     class_attrs := DotGraph.class_dict; stdout := "" |}.

(** ** Templates seen as literal text and placeholders *)

Inductive segment : Type :=
  | Lit (text : string)
  | UniqueID
  | JSONData.

Definition segment_text (g : segment) : string :=
  match g with
  | Lit text => text
  | UniqueID => "%(uniqueID)s"
  | JSONData => "%(JSONData)s"
  end.

(** The template text that a list of segments stands for. *)
Definition template_of (segs : list segment) : string :=
  foldr (λ g acc, segment_text g +:+ acc) "" segs.

(** The same text with the two values in place of the placeholders. *)
Definition fill (uid jsondata : string) (segs : list segment) : string :=
  foldr (λ g acc,
           match g with
           | Lit text => text
           | UniqueID => uid
           | JSONData => jsondata
           end +:+ acc) "" segs.

(** A literal segment has no percent sign: the two placeholders are the only
    directives of the template. *)
Definition placeholder_only (g : segment) : Prop :=
  match g with
  | Lit text => substring_of "%" text = false
  | _ => True
  end.

(** Cuts a template at its [%(uniqueID)s] and [%(JSONData)s] directives;
    [skip] counts the characters of a directive still to be passed over. *)
Fixpoint segments_from (skip : nat) (lit : string) (s : string) : list segment :=
  match s with
  | "" => [Lit lit]
  | String c r =>
      match skip with
      | S k => segments_from k lit r
      | O =>
          match strip_prefix "%(uniqueID)s" s, strip_prefix "%(JSONData)s" s with
          | Some _, _ => Lit lit :: UniqueID :: segments_from 11 "" r
          | None, Some _ => Lit lit :: JSONData :: segments_from 11 "" r
          | None, None => segments_from 0 (lit +:+ String c "") r
          end
      end
  end.

Definition segments_of (template : string) : list segment :=
  segments_from 0 "" template.

Fixpoint before_json (segs : list segment) : list segment :=
  match segs with
  | [] => []
  | JSONData :: _ => []
  | g :: r => g :: before_json r
  end.

Fixpoint after_json (segs : list segment) : list segment :=
  match segs with
  | [] => []
  | JSONData :: r => r
  | _ :: r => after_json r
  end.

(** ** Observations on the node-link representation *)

Definition nodes_of (d : jvalue) : option (list jvalue) :=
  match d with
  | JObj m => match dict_get "nodes" m with Some (JArr l) => Some l | _ => None end
  | _ => None
  end.

Definition links_of (d : jvalue) : option (list jvalue) :=
  match d with
  | JObj m => match dict_get "links" m with Some (JArr l) => Some l | _ => None end
  | _ => None
  end.

(** The link has integer [source] and [target] entries in [[0, n)]. *)
Definition link_in_range (n : nat) (link : jvalue) : bool :=
  match link with
  | JObj m =>
      match dict_get "source" m, dict_get "target" m with
      | Some (JInt s), Some (JInt t) =>
          bool_decide (0 ≤ s < Z.of_nat n)%Z && bool_decide (0 ≤ t < Z.of_nat n)%Z
      | _, _ => false
      end
  | _ => false
  end.

(** ** Measures used by the decoder's correctness proof *)

(** Fuel that [parse_value] needs to read back the encoding of a value. *)
Fixpoint json_size (v : jvalue) : nat :=
  match v with
  | JArr l => S (foldr (λ x acc, S (json_size x + acc)) 0%nat l)
  | JObj m => S (foldr (λ kv acc, S (json_size kv.2 + acc)) 0%nat m)
  | _ => 1
  end.

(** What may follow an encoded value: not a digit, not a fraction. *)
Definition delimited (s : string) : Prop :=
  match s with
  | "" => True
  | String c _ => digit_val c = None ∧ starts_fraction s = false
  end.

(** ** Pure readings of the views, used to state what they compute *)

(** What [graph] returns, from the value of [self.infile] and the files. *)
Definition graph_of_infile `{Host} (files : gmap string string) (infile : value) : outcome nxgraph :=
  match infile with
  | VStr path =>
      match read_file files path with
      | Some text => parse_dot text
      | None => Raise (IOError path)
      end
  | VEncoder _ => Raise (TypeError "expected a string")
  end.

(** What [dict] returns, from the value of [self.infile] and the files. *)
Definition dict_of_infile `{Host} (files : gmap string string) (infile : value) : outcome jvalue :=
  outcome_bind (graph_of_infile files infile) node_link_data.

(** What [graph] prints: the parser's diagnostic, when the file exists and
    the parser rejects its text. *)
Definition printed_of_infile `{Host} (files : gmap string string) (infile : outcome value) : string :=
  match infile with
  | Ok (VStr path) =>
      match read_file files path with
      | Some text => if is_ok (parse_dot text) then "" else parse_diagnostic text
      | None => ""
      end
  | _ => ""
  end.

Definition printed `{Host} (self : nat) (w : world) : string :=
  printed_of_infile (fs w) (getattr self "infile" w).1.

(** The world once [s] has been printed. *)
Definition print (s : string) (w : world) : world :=
  set_stdout (stdout w +:+ s) w.

(** The world after the first statement of [json]: an instance on which
    [_jenc] did not resolve has an encoder of its own. *)
Definition with_encoder (self : nat) (w : world) : world :=
  match heap w !! self with
  | Some o =>
      if is_ok (getattr self "_jenc" w).1 then w
      else set_heap (<[self := <["_jenc" := VEncoder MkJSONEncoder]> o]> (heap w)) w
  | None => w
  end.

(** What [json] returns once [self._jenc] and [self.dict] are evaluated: the
    failure of [dict], or else the encoding by an encoder and the [TypeError]
    of a string's [encode]. *)
Definition encode_with (jenc : value) (d : outcome jvalue) : outcome string :=
  outcome_bind d (λ d,
    match jenc with
    | VEncoder e => Ok (JSONEncoder_encode e d)
    | VStr _ => Raise (TypeError "encode() argument 1 must be str, not dict")
    end).

(** What [display.HTML(data=text)._repr_html_()] returns. *)
Definition displayed `{Host} (files : gmap string string) (text : string) : outcome string :=
  if starts_with "http" text then Unmodelled
  else if path_exists files text then
    match read_file files text with
    | Some contents => Ok contents
    | None => Raise (IOError text)
    end
  else Ok text.

(** The entry that [open(path, 'w')] creates or empties. *)
Definition target `{Host} (files : gmap string string) (path : string) : string :=
  default path (entry_of files path).

(** The identifier that [html] derives from a reading of the clock. *)
Definition unique_id `{Host} (now : float) : string :=
  "Graph" +:+ pretty (hash_float now).

(** ** A concrete host and concrete inputs, for the examples *)

(** The example of section 8: [digraph { A -> B; B -> C; }]. *)
Definition abc_text : string := "digraph { A -> B; B -> C; }".

Definition abc_graph : nxgraph :=
  {| is_directed := true; is_multigraph := false; graph_attr := ∅;
     node := [("A", ∅); ("B", ∅); ("C", ∅)];
     edges := [("A", "B", ∅); ("B", "C", ∅)] |}.

(** A parser that knows the text above and rejects every other. *)
Definition abc_parse (text : string) : outcome nxgraph :=
  if String.eqb text abc_text then Ok abc_graph
  else Raise (ParseError "syntax error").

(** What it prints for a text it rejects: the text and a mark under it. *)
Definition abc_diagnostic (text : string) : string :=
  text +:+ nl +:+ "^" +:+ nl.

(** Paths in one directory: every path but the empty one can be opened for
    writing, and [./name] is the file [name]. *)
Definition plain_path (path : string) : string :=
  default path (strip_prefix "./" path).

Definition abc_writable (path : string) : bool := negb (String.eqb path "").

(** The directory itself is the one thing that exists and is no file. *)
Definition abc_unreadable (path : string) : bool := String.eqb path ".".

Definition abc_same_file (p q : string) : bool :=
  String.eqb (plain_path p) (plain_path q).

(** A clock that advances between two readings; integral readings hash to
    themselves. *)
Definition ticking_host : Host :=
  {| float := Z; hash_float := λ t, t;
     clock := λ n, (1762214400 + Z.of_nat n)%Z; parse_dot := abc_parse;
     parse_diagnostic := abc_diagnostic; writable := abc_writable;
     same_file := abc_same_file; unreadable := abc_unreadable |}.

(** A clock too coarse to advance between two readings. *)
Definition coarse_host : Host :=
  {| float := Z; hash_float := λ t, t;
     clock := λ _, 1762214400%Z; parse_dot := abc_parse;
     parse_diagnostic := abc_diagnostic; writable := abc_writable;
     same_file := abc_same_file; unreadable := abc_unreadable |}.

Definition abc_files : gmap string string := {[ "abc.dot" := abc_text ]}.

(** The world after [DotGraph("abc.dot")] was evaluated at start-up. *)
Definition abc_world : world :=
  (DotGraph.new "abc.dot" None (initial_world abc_files)).2.

(** The node-link representation of the example (section 8). *)
Definition abc_dict : jvalue :=
  JObj [("directed", JBool true); ("multigraph", JBool false);
        ("graph", JObj []);
        ("nodes", JArr [JObj [("id", JStr "A")]; JObj [("id", JStr "B")];
                        JObj [("id", JStr "C")]]);
        ("links", JArr [JObj [("source", JInt 0); ("target", JInt 1)];
                        JObj [("source", JInt 1); ("target", JInt 2)]])].

(** A custom template without any placeholder, and an instance that uses it. *)
Definition static_template : string := "<p>static</p>".

Definition static_world : world :=
  (DotGraph.new "abc.dot" (Some static_template) (initial_world abc_files)).2.

(** An instance whose template is the name of a file that exists. *)
Definition named_world : world :=
  (DotGraph.new "abc.dot" (Some "abc.dot") (initial_world abc_files)).2.

(** A file that the example parser rejects. *)
Definition bad_files : gmap string string :=
  {[ "bad.dot" := "digraph {"; "out.html" := "<p>kept</p>" ]}.

(** A custom template with the two placeholders and nothing else to format. *)
Definition div_segments : list segment :=
  [Lit "<div id='"; UniqueID; Lit "'></div><script>draw("; JSONData; Lit ");</script>"].

(** What [html] returns for the example when the clock reads 1762214400. *)
Definition abc_html : string :=
  fill "Graph1762214400" (encode abc_dict) (segments_of DotGraph._template).

(** The last [n] characters cut off. *)
Definition chop (n : nat) (s : string) : string :=
  String.substring 0 (String.length s - n) s.

(** ** The fixed text of the default template *)

(** The [i]-th segment of the class attribute [_template], when it is text. *)
Definition template_piece (i : nat) : string :=
  match segments_of DotGraph._template !! i with
  | Some (Lit text) => text
  | _ => ""
  end.

Definition ends_with (suffix s : string) : bool :=
  String.eqb
    (String.substring (String.length s - String.length suffix) (String.length suffix) s)
    suffix.

(** The key of a [%(key)s] directive has no parenthesis of its own. *)
Definition plain_key (key : string) : Prop :=
  substring_of "(" key = false ∧ substring_of ")" key = false.

(** ** Auxiliary notions of the decoder's correctness proof *)

(** The first character of an integer literal. *)
Definition int_start (c : ascii) : bool :=
  Ascii.eqb c "-" || match digit_val c with Some _ => true | None => false end.

(** An encoded value starts with a character that is neither white space nor
    a closing bracket. *)
Definition value_start (c : ascii) : bool :=
  negb (is_ws c) && negb (Ascii.eqb c "]") && negb (Ascii.eqb c "}").

(** The text of one member of an encoded dictionary. *)
Definition member_text (kv : string * jvalue) : string :=
  encode_string kv.1 +:+ key_separator +:+ encode kv.2.

(** Fuel to read back the elements of a list, the members of a dictionary. *)
Definition elems_size (l : list jvalue) : nat :=
  foldr (λ x acc, S (json_size x + acc)) 0%nat l.

Definition members_size (m : list (string * jvalue)) : nat :=
  foldr (λ kv acc, S (json_size kv.2 + acc)) 0%nat m.

(** What the induction promises for one value. *)
Definition reads_back (v : jvalue) : Prop :=
  json_wf v → ∀ fuel rest, (json_size v ≤ fuel)%nat → delimited rest →
  parse_value fuel (encode v +:+ rest) = Some (v, rest).

(** ** Induction on values, through lists and dictionaries *)
Section jvalue_induction.
Variable P : jvalue → Prop.
Hypothesis Hnull : P JNull.
Hypothesis Hbool : ∀ b, P (JBool b).
Hypothesis Hint : ∀ z, P (JInt z).
Hypothesis Hstr : ∀ s, P (JStr s).
Hypothesis Harr : ∀ l, Forall P l → P (JArr l).
Hypothesis Hobj : ∀ m, Forall (λ kv, P kv.2) m → P (JObj m).

Fixpoint jvalue_nested_ind (v : jvalue) : P v :=
  match v with
  | JNull => Hnull
  | JBool b => Hbool b
  | JInt z => Hint z
  | JStr s => Hstr s
  | JArr l =>
      Harr l ((fix go (l : list jvalue) : Forall P l :=
                 match l with
                 | [] => @List.Forall_nil _ P
                 | x :: r => @List.Forall_cons _ P x r (jvalue_nested_ind x) (go r)
                 end) l)
  | JObj m =>
      Hobj m ((fix go (m : list (string * jvalue)) : Forall (λ kv, P kv.2) m :=
                 match m with
                 | [] => @List.Forall_nil _ _
                 | kv :: r =>
                     @List.Forall_cons _ (λ kv, P kv.2) kv r (jvalue_nested_ind kv.2) (go r)
                 end) m)
  end.
End jvalue_induction.

(** * Proofs *)

(** ** Text *)

(** Rewriting [String c a +:+ b] and ["" +:+ b] to their results. *)
Lemma app_cons_s (c : ascii) (a b : string) :
  String c a +:+ b = String c (a +:+ b).
Proof. reflexivity. Qed.

Lemma app_nil_l_s (b : string) : "" +:+ b = b.
Proof. reflexivity. Qed.

Ltac sapp := repeat (rewrite app_cons_s || rewrite app_nil_l_s).

Lemma app_assoc_s (a b c : string) : (a +:+ b) +:+ c = a +:+ (b +:+ c).
Proof. induction a as [|x a IH]; sapp; [done | by rewrite IH]. Qed.

Lemma app_nil_r_s (a : string) : a +:+ "" = a.
Proof. induction a as [|x a IH]; sapp; [done | by rewrite IH]. Qed.

Lemma length_app_s (a b : string) :
  String.length (a +:+ b) = (String.length a + String.length b)%nat.
Proof. induction a as [|x a IH]; sapp; simpl; [done | by rewrite IH]. Qed.

(** ** Decimal numerals *)

Lemma digit_val_pretty_N_char (x : N) :
  (x < 10)%N → digit_val (pretty_N_char x) = Some x.
Proof.
  intros Hx.
  assert (x = 0 ∨ x = 1 ∨ x = 2 ∨ x = 3 ∨ x = 4 ∨ x = 5 ∨ x = 6 ∨ x = 7
          ∨ x = 8 ∨ x = 9)%N as Hcases by lia.
  repeat (destruct Hcases as [-> | Hcases]; [done |]). by subst.
Qed.

Lemma pretty_N_go_app (x : N) (s r : string) :
  pretty_N_go x s +:+ r = pretty_N_go x (s +:+ r).
Proof.
  revert s. induction (N.lt_wf_0 x) as [x _ IH]; intros s.
  destruct (decide (x = 0)%N) as [-> | Hx]; [done |].
  rewrite !(pretty_N_go_step x) by lia.
  rewrite IH; [done |]. apply N.div_lt; lia.
Qed.

(** Reading the digits of [x] back shifts them into the accumulator. *)
Lemma read_nat_pretty_N_go (x : N) :
  ∃ k : N, ∀ acc s,
    read_nat acc (pretty_N_go x s) = read_nat (acc * 10 ^ k + x) s.
Proof.
  induction (N.lt_wf_0 x) as [x _ IH].
  destruct (decide (x = 0)%N) as [-> | Hx].
  { exists 0%N. intros acc s. rewrite pretty_N_go_0. f_equal. lia. }
  destruct (IH (x `div` 10)%N) as [k Hk]; [apply N.div_lt; lia |].
  exists (k + 1)%N. intros acc s.
  rewrite pretty_N_go_step by lia. rewrite Hk. simpl.
  rewrite digit_val_pretty_N_char by (apply N.mod_lt; lia).
  f_equal. rewrite N.pow_add_r, N.pow_1_r.
  pose proof (N.div_mod x 10 ltac:(lia)). lia.
Qed.

Lemma pretty_N_go_head (x : N) (s : string) :
  (0 < x)%N →
  ∃ d c t, pretty_N_go x s = String c t ∧ digit_val c = Some d ∧ (0 < d)%N.
Proof.
  revert s. induction (N.lt_wf_0 x) as [x _ IH]; intros s Hx.
  rewrite pretty_N_go_step by done.
  destruct (decide (x `div` 10 = 0)%N) as [Hq | Hq].
  - rewrite Hq, pretty_N_go_0.
    assert (x < 10)%N.
    { pose proof (N.div_mod x 10 ltac:(lia)) as Hdm.
      pose proof (N.mod_lt x 10 ltac:(lia)). rewrite Hq in Hdm. lia. }
    exists x, (pretty_N_char (x `mod` 10)), s. split; [done |].
    rewrite N.mod_small by done. by rewrite digit_val_pretty_N_char.
  - apply IH; [apply N.div_lt; lia | by apply N.neq_0_lt_0].
Qed.

Lemma read_nat_delimited (n : N) (s : string) :
  delimited s → read_nat n s = (n, s).
Proof. destruct s as [|c s]; [done |]. intros [Hc _]. simpl. by rewrite Hc. Qed.

Lemma parse_nat_pretty (x : N) (r : string) :
  delimited r → parse_nat (pretty x +:+ r) = Some (x, r).
Proof.
  intros Hr. unfold pretty, pretty_N.
  destruct (decide (x = 0)%N) as [-> | Hx]; [done |].
  destruct (pretty_N_go_head x "" ltac:(lia)) as (d & c & t & Heq & Hc & Hd).
  destruct (read_nat_pretty_N_go x) as [k Hk].
  assert (parse_nat (pretty_N_go x "" +:+ r) = Some (read_nat 0 (pretty_N_go x "" +:+ r))) as ->.
  { rewrite Heq. simpl. rewrite Hc. destruct d; [lia | done]. }
  rewrite pretty_N_go_app, Hk. simpl. by rewrite read_nat_delimited.
Qed.

Lemma parse_int_pretty (z : Z) (r : string) :
  delimited r → parse_int (pretty z +:+ r) = Some (z, r).
Proof.
  intros Hr.
  assert (starts_fraction r = false) as Hfr by (destruct r; [done | apply Hr]).
  destruct z as [|p|p]; unfold pretty, pretty_Z.
  - sapp. unfold parse_int. simpl. by rewrite Hfr.
  - change (pretty p) with (pretty (N.pos p)).
    destruct (pretty_N_go_head (N.pos p) "" ltac:(lia)) as (d & c & t & Heq & Hc & Hd).
    unfold parse_int.
    assert (match pretty (N.pos p) +:+ r with
            | String c r => if Ascii.eqb c "-" then Some r else None
            | "" => None end = None) as ->.
    { unfold pretty, pretty_N. simpl. rewrite Heq. sapp.
      destruct (Ascii.eqb_spec c "-") as [-> |]; [done | done]. }
    simpl. rewrite parse_nat_pretty by done. by rewrite Hfr.
  - change (pretty p) with (pretty (N.pos p)). rewrite app_assoc_s. sapp.
    unfold parse_int. simpl. rewrite parse_nat_pretty by done. by rewrite Hfr.
Qed.

(** ** String literals *)

Lemma parse_chars_escape_char (c : ascii) (t : string) :
  parse_chars (escape_char c +:+ t) = push_char c (parse_chars t).
Proof. destruct c as [[] [] [] [] [] [] [] []]; reflexivity. Qed.

Lemma parse_chars_escape (s r : string) :
  parse_chars (escape s +:+ dq +:+ r) = Some (s, r).
Proof.
  induction s as [|c s IH]; [done |].
  change (escape (String c s)) with (escape_char c +:+ escape s).
  rewrite app_assoc_s, parse_chars_escape_char, IH. done.
Qed.

Lemma parse_chars_encode_string (s r : string) :
  parse_chars (escape s +:+ dq +:+ r) = Some (s, r) ∧
  encode_string s +:+ r = String dquote (escape s +:+ dq +:+ r).
Proof.
  split; [apply parse_chars_escape |].
  unfold encode_string. rewrite !app_assoc_s. done.
Qed.

(** ** Dictionaries *)

Lemma dict_get_set_eq {V} (k : string) (v : V) (d : list (string * V)) :
  dict_get k (dict_set k v d) = Some v.
Proof.
  induction d as [|[k' v'] d IH]; simpl.
  - by rewrite String.eqb_refl.
  - destruct (String.eqb_spec k k') as [-> | Hne]; simpl.
    + by rewrite String.eqb_refl.
    + by destruct (String.eqb_spec k k').
Qed.

Lemma dict_get_set_ne {V} (k k' : string) (v : V) (d : list (string * V)) :
  k ≠ k' → dict_get k (dict_set k' v d) = dict_get k d.
Proof.
  intros Hne. induction d as [|[k0 v0] d IH]; simpl.
  - by destruct (String.eqb_spec k k').
  - destruct (String.eqb_spec k' k0) as [-> | Hne0]; simpl.
    + destruct (String.eqb_spec k k0); [done | done].
    + destruct (String.eqb_spec k k0); [done | apply IH].
Qed.

Lemma dict_set_fresh {V} (k : string) (v : V) (d : list (string * V)) :
  k ∉ d.*1 → dict_set k v d = (d ++ [(k, v)])%list.
Proof.
  induction d as [|[k' v'] d IH]; simpl; [done |].
  intros Hk. apply not_elem_of_cons in Hk as [Hne Hk].
  destruct (String.eqb_spec k k'); [done |]. by rewrite IH.
Qed.

Lemma dict_set_keys {V} (k : string) (v : V) (d : list (string * V)) :
  (dict_set k v d).*1 = if bool_decide (k ∈ d.*1) then d.*1 else (d.*1 ++ [k])%list.
Proof.
  induction d as [|[k' v'] d IH]; csimpl; [done |].
  destruct (String.eqb_spec k k') as [-> | Hne]; csimpl.
  - rewrite bool_decide_eq_true_2; [done | by left].
  - rewrite IH. destruct (decide (k ∈ d.*1)) as [Hin | Hin].
    + rewrite !bool_decide_eq_true_2; [done | by right | done].
    + rewrite !bool_decide_eq_false_2; [done | | done].
      intros [? | ?]%elem_of_cons; done.
Qed.

Lemma dict_set_NoDup {V} (k : string) (v : V) (d : list (string * V)) :
  NoDup d.*1 → NoDup (dict_set k v d).*1.
Proof.
  intros Hd. rewrite dict_set_keys. case_bool_decide; [done |].
  apply NoDup_app. split_and!; [done | | apply NoDup_singleton].
  intros x Hx ->%list_elem_of_singleton. done.
Qed.

Lemma dict_set_Forall {V} (Q : V → Prop) (k : string) (v : V) (d : list (string * V)) :
  Q v → Forall (λ kv, Q kv.2) d → Forall (λ kv, Q kv.2) (dict_set k v d).
Proof.
  intros Hv. induction 1 as [|[k' v'] d Hx Hd IH]; simpl.
  - by constructor.
  - destruct (String.eqb k k'); constructor; done.
Qed.

Lemma foldl_dict_set_NoDup {V} (ps acc : list (string * V)) :
  NoDup acc.*1 → NoDup (foldl (λ d kv, dict_set kv.1 kv.2 d) acc ps).*1.
Proof.
  revert acc. induction ps as [|[k v] ps IH]; intros acc Hacc; simpl; [done |].
  by apply IH, dict_set_NoDup.
Qed.

Lemma foldl_dict_set_Forall {V} (Q : V → Prop) (ps acc : list (string * V)) :
  Forall (λ kv, Q kv.2) ps → Forall (λ kv, Q kv.2) acc →
  Forall (λ kv, Q kv.2) (foldl (λ d kv, dict_set kv.1 kv.2 d) acc ps).
Proof.
  intros Hps. revert acc. induction Hps as [|[k v] ps Hx Hps IH]; intros acc Hacc; simpl.
  - done.
  - by apply IH, dict_set_Forall.
Qed.

Lemma dict_of_pairs_NoDup {V} (ps : list (string * V)) : NoDup (dict_of_pairs ps).*1.
Proof. apply foldl_dict_set_NoDup. constructor. Qed.

Lemma dict_of_pairs_Forall {V} (Q : V → Prop) (ps : list (string * V)) :
  Forall (λ kv, Q kv.2) ps → Forall (λ kv, Q kv.2) (dict_of_pairs ps).
Proof. intros. by apply foldl_dict_set_Forall. Qed.

Lemma foldl_dict_set_fresh {V} (ps acc : list (string * V)) :
  NoDup (acc ++ ps)%list.*1 →
  foldl (λ d kv, dict_set kv.1 kv.2 d) acc ps = (acc ++ ps)%list.
Proof.
  revert acc. induction ps as [|[k v] ps IH]; intros acc Hnd; simpl.
  - by rewrite app_nil_r.
  - rewrite dict_set_fresh.
    + rewrite IH; rewrite <- app_assoc; done.
    + rewrite fmap_app in Hnd. apply NoDup_app in Hnd as (_ & Hdisj & _).
      intros Hk. apply (Hdisj k Hk). simpl. by left.
Qed.

(** A list of pairs with pairwise different keys is its own dictionary. *)
Lemma dict_of_pairs_id {V} (ps : list (string * V)) :
  NoDup ps.*1 → dict_of_pairs ps = ps.
Proof. intros. by apply (foldl_dict_set_fresh ps []). Qed.

(** ** Reading back an encoded value *)

Lemma pretty_Z_head (z : Z) : ∃ c t, pretty z = String c t ∧ int_start c = true.
Proof.
  destruct z as [|p|p]; unfold pretty, pretty_Z.
  - by exists "0"%char, "".
  - destruct (pretty_N_go_head (N.pos p) "" ltac:(lia)) as (d & c & t & Heq & Hc & _).
    exists c, t. split; [done |]. unfold int_start. rewrite Hc. apply orb_true_r.
  - by exists "-"%char, (pretty p).
Qed.

Lemma parse_value_int_start (fuel : nat) (c : ascii) (t : string) :
  int_start c = true →
  parse_value (S fuel) (String c t) =
    match parse_int (String c t) with
    | Some (z, r) => Some (JInt z, r)
    | None => None
    end.
Proof.
  destruct c as [[] [] [] [] [] [] [] []]; intros Hc;
    try (cbv in Hc; discriminate Hc); reflexivity.
Qed.

Lemma parse_value_space (fuel : nat) (s : string) :
  parse_value fuel (String " " s) = parse_value fuel s.
Proof. destruct fuel; reflexivity. Qed.

Lemma parse_members_space (fuel : nat) (s : string) :
  parse_members fuel (String " " s) = parse_members fuel s.
Proof. destruct fuel; reflexivity. Qed.

Lemma json_wf_arr (l : list jvalue) : json_wf (JArr l) ↔ Forall json_wf l.
Proof.
  simpl. induction l as [|x l IH]; simpl.
  - split; [constructor | done].
  - rewrite Forall_cons. by rewrite IH.
Qed.

Lemma json_wf_obj (m : list (string * jvalue)) :
  json_wf (JObj m) ↔ NoDup m.*1 ∧ Forall (λ kv, json_wf kv.2) m.
Proof.
  simpl. apply and_iff_compat_l. induction m as [|x m IH]; simpl.
  - split; [constructor | done].
  - rewrite Forall_cons. by rewrite IH.
Qed.

Lemma delimited_comma (s : string) : delimited (String "," s).
Proof. done. Qed.
Lemma delimited_bracket (s : string) : delimited (String "]" s).
Proof. done. Qed.
Lemma delimited_brace (s : string) : delimited (String "}" s).
Proof. done. Qed.

(** The equations of the decoder, one per shape of the input. *)
Lemma parse_elems_S (fuel : nat) (s : string) :
  parse_elems (S fuel) s =
    match parse_value fuel s with
    | None => None
    | Some (v, r) =>
        match strip_prefix "," (skip_ws r) with
        | Some r' =>
            match parse_elems fuel r' with
            | Some (vs, r'') => Some (v :: vs, r'')
            | None => None
            end
        | None =>
            match strip_prefix "]" (skip_ws r) with
            | Some r' => Some ([v], r')
            | None => None
            end
        end
    end.
Proof. reflexivity. Qed.

Lemma parse_members_S (fuel : nat) (r : string) :
  parse_members (S fuel) (String dquote r) =
    match parse_chars r with
    | None => None
    | Some (k, r1) =>
        match strip_prefix ":" (skip_ws r1) with
        | Some r2 =>
            match parse_value fuel r2 with
            | None => None
            | Some (v, r3) =>
                match strip_prefix "," (skip_ws r3) with
                | Some r4 =>
                    match parse_members fuel r4 with
                    | Some (ps, r5) => Some ((k, v) :: ps, r5)
                    | None => None
                    end
                | None =>
                    match strip_prefix "}" (skip_ws r3) with
                    | Some r4 => Some ([(k, v)], r4)
                    | None => None
                    end
                end
            end
        | None => None
        end
    end.
Proof. reflexivity. Qed.

Lemma parse_value_str (fuel : nat) (r : string) :
  parse_value (S fuel) (String dquote r) =
    match parse_chars r with
    | Some (str, r') => Some (JStr str, r')
    | None => None
    end.
Proof. reflexivity. Qed.

Lemma parse_value_arr (fuel : nat) (r : string) :
  parse_value (S fuel) (String "[" r) =
    match strip_prefix "]" (skip_ws r) with
    | Some r' => Some (JArr [], r')
    | None =>
        match parse_elems fuel r with
        | Some (l, r') => Some (JArr l, r')
        | None => None
        end
    end.
Proof. reflexivity. Qed.

Lemma parse_value_obj (fuel : nat) (r : string) :
  parse_value (S fuel) (String "{" r) =
    match strip_prefix "}" (skip_ws r) with
    | Some r' => Some (JObj [], r')
    | None =>
        match parse_members fuel r with
        | Some (ps, r') => Some (JObj (dict_of_pairs ps), r')
        | None => None
        end
    end.
Proof. reflexivity. Qed.

Lemma parse_elems_space (fuel : nat) (s : string) :
  parse_elems fuel (String " " s) = parse_elems fuel s.
Proof.
  destruct fuel as [|fuel]; [done |]. by rewrite !parse_elems_S, parse_value_space.
Qed.

Lemma after_comma (s : string) :
  strip_prefix "," (skip_ws (String "," s)) = Some s.
Proof. reflexivity. Qed.

Lemma after_bracket (s : string) :
  strip_prefix "," (skip_ws (String "]" s)) = None ∧
  strip_prefix "]" (skip_ws (String "]" s)) = Some s.
Proof. split; reflexivity. Qed.

Lemma after_brace (s : string) :
  strip_prefix "," (skip_ws (String "}" s)) = None ∧
  strip_prefix "}" (skip_ws (String "}" s)) = Some s.
Proof. split; reflexivity. Qed.

Lemma after_colon (s : string) :
  strip_prefix ":" (skip_ws (String ":" s)) = Some s.
Proof. reflexivity. Qed.

Lemma join_cons2 (sep x y : string) (l : list string) :
  join sep (x :: y :: l) = x +:+ sep +:+ join sep (y :: l).
Proof. reflexivity. Qed.

Lemma parse_elems_encode (l : list jvalue) :
  Forall reads_back l → Forall json_wf l → l ≠ [] →
  ∀ fuel rest, (elems_size l ≤ fuel)%nat →
  parse_elems fuel (join item_separator (map encode l) +:+ String "]" rest)
  = Some (l, rest).
Proof.
  induction 1 as [|x l Hx Hl IH]; [done |].
  intros Hwf _ fuel rest Hfuel. apply Forall_cons in Hwf as [Hwx Hwl].
  destruct fuel as [|fuel]; [simpl in Hfuel; lia |].
  change (elems_size (x :: l)) with (S (json_size x + elems_size l)) in Hfuel.
  rewrite parse_elems_S. destruct l as [|y l].
  - change (join item_separator (map encode [x])) with (encode x). sapp.
    rewrite (Hx Hwx fuel _ ltac:(lia) (delimited_bracket rest)).
    by destruct (after_bracket rest) as [-> ->].
  - change (map encode (x :: y :: l)) with (encode x :: encode y :: map encode l).
    rewrite join_cons2, !app_assoc_s. unfold item_separator at 1. sapp.
    rewrite (Hx Hwx fuel _ ltac:(lia) (delimited_comma _)).
    rewrite after_comma, parse_elems_space.
    change (encode y :: map encode l) with (map encode (y :: l)).
    rewrite (IH Hwl ltac:(done) fuel rest ltac:(lia)). done.
Qed.

Lemma parse_members_encode (m : list (string * jvalue)) :
  Forall (λ kv, reads_back kv.2) m → Forall (λ kv, json_wf kv.2) m → m ≠ [] →
  ∀ fuel rest, (members_size m ≤ fuel)%nat →
  parse_members fuel (join item_separator (map member_text m) +:+ String "}" rest)
  = Some (m, rest).
Proof.
  induction 1 as [|[k x] m Hx Hm IH]; [done |].
  intros Hwf _ fuel rest Hfuel. apply Forall_cons in Hwf as [Hwx Hwm].
  destruct fuel as [|fuel]; [simpl in Hfuel; lia |].
  change (members_size ((k, x) :: m)) with (S (json_size x + members_size m)) in Hfuel.
  simpl in Hx, Hwx.
  assert (∀ tail, member_text (k, x) +:+ tail
                 = String dquote (escape k +:+ dq +:+ String ":" (String " " (encode x +:+ tail))))
    as Hmember.
  { intros tail. unfold member_text, encode_string, key_separator. simpl fst. simpl snd.
    rewrite !app_assoc_s. by sapp. }
  destruct m as [|y m].
  - change (join item_separator (map member_text [(k, x)])) with (member_text (k, x)).
    rewrite Hmember, parse_members_S, parse_chars_escape, after_colon, parse_value_space.
    sapp. rewrite (Hx Hwx fuel _ ltac:(lia) (delimited_brace rest)).
    by destruct (after_brace rest) as [-> ->].
  - change (map member_text ((k, x) :: y :: m))
      with (member_text (k, x) :: member_text y :: map member_text m).
    rewrite join_cons2, !app_assoc_s, Hmember.
    rewrite parse_members_S, parse_chars_escape, after_colon, parse_value_space.
    unfold item_separator at 1. sapp.
    rewrite (Hx Hwx fuel _ ltac:(lia) (delimited_comma _)).
    rewrite after_comma, parse_members_space.
    change (member_text y :: map member_text m) with (map member_text (y :: m)).
    rewrite (IH Hwm ltac:(done) fuel rest ltac:(lia)). done.
Qed.

Lemma int_start_value_start (c : ascii) : int_start c = true → value_start c = true.
Proof.
  destruct c as [[] [] [] [] [] [] [] []]; intros Hc;
    try (cbv in Hc; discriminate Hc); reflexivity.
Qed.

Lemma encode_head (v : jvalue) :
  ∃ c t, encode v = String c t ∧ value_start c = true.
Proof.
  destruct v as [| [] | z | s | l | m]; try (by eexists _, _).
  destruct (pretty_Z_head z) as (c & t & Heq & Hc).
  exists c, t. split; [done | by apply int_start_value_start].
Qed.

Lemma value_start_not_closing (c : ascii) (t : string) :
  value_start c = true →
  strip_prefix "]" (skip_ws (String c t)) = None ∧
  strip_prefix "}" (skip_ws (String c t)) = None.
Proof.
  destruct c as [[] [] [] [] [] [] [] []]; intros Hc;
    try (cbv in Hc; discriminate Hc); split; reflexivity.
Qed.

Lemma join_head (sep x : string) (l : list string) (r : string) :
  ∃ tail, join sep (x :: l) +:+ r = x +:+ tail.
Proof.
  destruct l as [|y l]; [by exists r |].
  rewrite join_cons2, !app_assoc_s. by eexists.
Qed.

(** Every well-formed value is read back from its encoding. *)
Lemma parse_value_encode (v : jvalue) : reads_back v.
Proof.
  induction v as [| b | z | s | l IH | m IH] using jvalue_nested_ind;
    intros Hwf fuel rest Hfuel Hrest;
    (destruct fuel as [|fuel]; [simpl in Hfuel; lia |]).
  - reflexivity.
  - destruct b; reflexivity.
  - change (encode (JInt z)) with (pretty z).
    destruct (pretty_Z_head z) as (c & t & Heq & Hc).
    pose proof (parse_int_pretty z rest Hrest) as Hint.
    rewrite Heq in *. revert Hint. sapp. intros Hint.
    by rewrite parse_value_int_start, Hint.
  - change (encode (JStr s)) with (encode_string s).
    destruct (parse_chars_encode_string s rest) as [Hp ->].
    by rewrite parse_value_str, Hp.
  - apply json_wf_arr in Hwf. destruct l as [|x l].
    + reflexivity.
    + change (encode (JArr (x :: l)))
        with ("[" +:+ join item_separator (map encode (x :: l)) +:+ "]").
      rewrite !app_assoc_s. sapp. rewrite parse_value_arr.
      assert (strip_prefix "]" (skip_ws (join item_separator (map encode (x :: l))
                                          +:+ String "]" rest)) = None) as ->.
      { destruct (join_head item_separator (encode x) (map encode l) (String "]" rest))
          as [tail Htail].
        change (map encode (x :: l)) with (encode x :: map encode l). rewrite Htail.
        destruct (encode_head x) as (c & t & -> & Hc). sapp.
        by apply value_start_not_closing. }
      rewrite (parse_elems_encode (x :: l) IH Hwf ltac:(done) fuel rest); [done |].
      simpl in Hfuel. unfold elems_size. simpl. lia.
  - apply json_wf_obj in Hwf as [Hnd Hwf]. destruct m as [|x m].
    + reflexivity.
    + change (encode (JObj (x :: m)))
        with ("{" +:+ join item_separator (map member_text (x :: m)) +:+ "}").
      rewrite !app_assoc_s. sapp. rewrite parse_value_obj.
      assert (strip_prefix "}" (skip_ws (join item_separator (map member_text (x :: m))
                                          +:+ String "}" rest)) = None) as ->.
      { destruct (join_head item_separator (member_text x) (map member_text m)
                    (String "}" rest)) as [tail Htail].
        change (map member_text (x :: m)) with (member_text x :: map member_text m).
        rewrite Htail. unfold member_text, encode_string. rewrite !app_assoc_s.
        by sapp. }
      rewrite (parse_members_encode (x :: m) IH Hwf ltac:(done) fuel rest).
      * by rewrite dict_of_pairs_id.
      * simpl in Hfuel. unfold members_size. simpl. lia.
Qed.

(** ** The fuel of [loads] is enough *)

Lemma encode_string_length (s : string) : (2 ≤ String.length (encode_string s))%nat.
Proof.
  unfold encode_string. rewrite !length_app_s. simpl. lia.
Qed.

Lemma pretty_Z_length (z : Z) : (1 ≤ String.length (pretty z))%nat.
Proof. destruct (pretty_Z_head z) as (c & t & -> & _). simpl. lia. Qed.

Lemma join_length_elems (l : list jvalue) (x : jvalue) :
  Forall (λ v, (json_size v ≤ String.length (encode v))%nat) (x :: l) →
  (elems_size (x :: l) ≤ String.length (join item_separator (map encode (x :: l))) + 1)%nat.
Proof.
  revert x. induction l as [|y l IH]; intros x [Hx Hl]%Forall_cons.
  - simpl. lia.
  - change (map encode (x :: y :: l)) with (encode x :: encode y :: map encode l).
    rewrite join_cons2, !length_app_s.
    change (elems_size (x :: y :: l)) with (S (json_size x + elems_size (y :: l))).
    specialize (IH y Hl). change (encode y :: map encode l) with (map encode (y :: l)).
    change (String.length item_separator) with 2%nat. lia.
Qed.

Lemma join_length_members (m : list (string * jvalue)) (x : string * jvalue) :
  Forall (λ kv, (json_size kv.2 ≤ String.length (encode kv.2))%nat) (x :: m) →
  (members_size (x :: m)
   ≤ String.length (join item_separator (map member_text (x :: m))) + 1)%nat.
Proof.
  assert (∀ kv : string * jvalue,
            (2 + String.length (encode kv.2) ≤ String.length (member_text kv))%nat) as Hmt.
  { intros kv. unfold member_text. rewrite !length_app_s.
    pose proof (encode_string_length kv.1). lia. }
  revert x. induction m as [|y m IH]; intros x [Hx Hm]%Forall_cons.
  - change (join item_separator (map member_text [x])) with (member_text x).
    specialize (Hmt x). change (members_size [x]) with (S (json_size x.2 + 0)).
    simpl in Hx. lia.
  - change (map member_text (x :: y :: m))
      with (member_text x :: member_text y :: map member_text m).
    rewrite join_cons2, !length_app_s.
    change (members_size (x :: y :: m)) with (S (json_size x.2 + members_size (y :: m))).
    specialize (IH y Hm). specialize (Hmt x). simpl in Hx.
    change (member_text y :: map member_text m) with (map member_text (y :: m)).
    change (String.length item_separator) with 2%nat. lia.
Qed.

Lemma json_size_le_length (v : jvalue) : (json_size v ≤ String.length (encode v))%nat.
Proof.
  induction v as [| b | z | s | l IH | m IH] using jvalue_nested_ind.
  - simpl. lia.
  - destruct b; simpl; lia.
  - apply pretty_Z_length.
  - change (encode (JStr s)) with (encode_string s).
    pose proof (encode_string_length s). simpl. lia.
  - destruct l as [|x l]; [simpl; lia |].
    change (encode (JArr (x :: l)))
      with ("[" +:+ join item_separator (map encode (x :: l)) +:+ "]").
    rewrite !length_app_s. pose proof (join_length_elems l x IH).
    change (json_size (JArr (x :: l))) with (S (elems_size (x :: l))).
    change (String.length "[") with 1%nat. change (String.length "]") with 1%nat. lia.
  - destruct m as [|x m]; [simpl; lia |].
    change (encode (JObj (x :: m)))
      with ("{" +:+ join item_separator (map member_text (x :: m)) +:+ "}").
    rewrite !length_app_s. pose proof (join_length_members m x IH).
    change (json_size (JObj (x :: m))) with (S (members_size (x :: m))).
    change (String.length "{") with 1%nat. change (String.length "}") with 1%nat. lia.
Qed.

(** [json.loads(encoder.encode(v)) == v] *)
Lemma loads_encode (v : jvalue) : json_wf v → loads (encode v) = Some v.
Proof.
  intros Hwf. unfold loads.
  pose proof (parse_value_encode v Hwf (S (String.length (encode v))) "") as Hp.
  rewrite app_nil_r_s in Hp. rewrite Hp; [done | | done].
  pose proof (json_size_le_length v). lia.
Qed.

(** The JSON text of the example, as the default encoder writes it. *)
Example encode_abc :
  encode abc_dict =
    "{" +:+ dq +:+ "directed" +:+ dq +:+ ": true, " +:+ dq +:+ "multigraph" +:+ dq +:+
    ": false, " +:+ dq +:+ "graph" +:+ dq +:+ ": {}, " +:+ dq +:+ "nodes" +:+ dq +:+
    ": [{" +:+ dq +:+ "id" +:+ dq +:+ ": " +:+ dq +:+ "A" +:+ dq +:+ "}, {" +:+ dq +:+
    "id" +:+ dq +:+ ": " +:+ dq +:+ "B" +:+ dq +:+ "}, {" +:+ dq +:+ "id" +:+ dq +:+
    ": " +:+ dq +:+ "C" +:+ dq +:+ "}], " +:+ dq +:+ "links" +:+ dq +:+ ": [{" +:+
    dq +:+ "source" +:+ dq +:+ ": 0, " +:+ dq +:+ "target" +:+ dq +:+ ": 1}, {" +:+
    dq +:+ "source" +:+ dq +:+ ": 1, " +:+ dq +:+ "target" +:+ dq +:+ ": 2}]}".
Proof. vm_compute. reflexivity. Qed.

(** Quotes, backslashes and characters outside printable ASCII are escaped,
    and read back. *)
Example encode_escapes :
  encode (JStr (String dquote (String backslash (String newline (String (ascii_of_nat 233) "")))))
  = dq +:+ String backslash dq +:+ String backslash (String backslash "")
       +:+ String backslash "n" +:+ String backslash "u00e9" +:+ dq
  ∧ loads (encode (JStr (String dquote (String backslash (String newline
                                                       (String (ascii_of_nat 233) ""))))))
    = Some (JStr (String dquote (String backslash (String newline
                                                 (String (ascii_of_nat 233) ""))))).
Proof. split; vm_compute; reflexivity. Qed.

(** ** The node-link adapter *)

Lemma outcome_bind_Ok {A B} (o : outcome A) (k : A → outcome B) (b : B) :
  outcome_bind o k = Ok b → ∃ a, o = Ok a ∧ k a = Ok b.
Proof. destruct o as [a | e |]; simpl; [by exists a | done | done]. Qed.

Lemma mapM_Ok {A B} (f : A → outcome B) (l : list A) (ys : list B) :
  mapM f l = Ok ys → Forall2 (λ x y, f x = Ok y) l ys.
Proof.
  revert ys. induction l as [|x l IH]; intros ys; simpl.
  - intros [= <-]. constructor.
  - intros (y & Hy & (ys' & Hys & [= <-])%outcome_bind_Ok)%outcome_bind_Ok.
    constructor; [done | by apply IH].
Qed.

Lemma dict_get_elem_of {V} (k : string) (v : V) (d : list (string * V)) :
  dict_get k d = Some v → (k, v) ∈ d.
Proof.
  induction d as [|[k' v'] d IH]; simpl; [done |].
  destruct (String.eqb_spec k k') as [-> | Hne].
  - intros [= ->]. by left.
  - intros Hd. right. by apply IH.
Qed.

Lemma dict_of_pairs_get {V} (Q : V → Prop) (ps : list (string * V)) (k : string) (v : V) :
  Forall (λ kv, Q kv.2) ps → dict_get k (dict_of_pairs ps) = Some v → Q v.
Proof.
  intros Hps Hget. apply dict_of_pairs_Forall in Hps.
  apply dict_get_elem_of in Hget. rewrite Forall_forall in Hps.
  apply (Hps (k, v) Hget).
Qed.

Lemma zip_snd_Forall {A B} (Q : B → Prop) (l1 : list A) (l2 : list B) :
  Forall Q l2 → Forall (λ kv, Q kv.2) (zip l1 l2).
Proof.
  intros Hl2. revert l1. induction Hl2 as [|y l2 Hy Hl2 IH]; intros [|x l1]; simpl;
    try constructor; auto.
Qed.

(** The numbering of the nodes only hands out positions of the node list. *)
Lemma index_lookup_lt (ids : list string) (u : string) (i : nat) :
  index_lookup (dict_of_pairs (zip ids (seq 0 (List.length ids)))) u = Ok i →
  (i < List.length ids)%nat.
Proof.
  unfold index_lookup. destruct (dict_get u _) as [j |] eqn:Hget; [| done].
  intros [= ->].
  eapply (dict_of_pairs_get (λ j, (j < List.length ids)%nat)); [| exact Hget].
  apply (zip_snd_Forall (λ j, (j < List.length ids)%nat)), Forall_forall.
  intros j Hj%elem_of_seq. lia.
Qed.

Lemma attr_items_wf (a : gmap string string) :
  Forall (λ kv : string * jvalue, json_wf kv.2) (attr_items a).
Proof. unfold attr_items. apply Forall_forall. intros kv (x & -> & _)%list_elem_of_fmap. done. Qed.

Lemma attrs_dict_wf (a : gmap string string) :
  json_wf (JObj (dict_of_pairs (attr_items a))).
Proof.
  apply json_wf_obj. split; [apply dict_of_pairs_NoDup |].
  apply dict_of_pairs_Forall, attr_items_wf.
Qed.

Lemma dict_set_wf (k : string) (v : jvalue) (m : list (string * jvalue)) :
  json_wf v → json_wf (JObj m) → json_wf (JObj (dict_set k v m)).
Proof.
  rewrite !json_wf_obj. intros Hv [Hnd Hm]. split.
  - by apply dict_set_NoDup.
  - by apply (dict_set_Forall json_wf).
Qed.

Section node_link.
Variable g : nxgraph.
Variable d : jvalue.
Hypothesis Hd : node_link_data g = Ok d.

Lemma node_link_data_shape :
  ∃ nodes links,
    d = JObj [("directed", JBool (is_directed g));
              ("multigraph", JBool (is_multigraph g));
              ("graph", JObj (dict_of_pairs (attr_items (graph_attr g))));
              ("nodes", JArr nodes); ("links", JArr links)]
    ∧ List.length nodes = List.length (node g)
    ∧ Forall json_wf nodes
    ∧ Forall json_wf links
    ∧ Forall (λ l, link_in_range (List.length (node g)) l = true) links.
Proof using Hd.
  unfold node_link_data in Hd.
  apply outcome_bind_Ok in Hd as (links & Hlinks & [= <-]).
  eexists _, links. split; [reflexivity |].
  apply mapM_Ok in Hlinks. split_and!.
  - by rewrite length_map.
  - apply Forall_forall. intros x (nd & -> & _)%list_elem_of_fmap.
    apply dict_set_wf; [done | apply attrs_dict_wf].
  - apply Forall_forall. intros l Hl.
    apply list_elem_of_lookup in Hl as [i Hi].
    destruct (Forall2_lookup_r _ _ _ _ _ Hlinks Hi) as (e & _ & He).
    apply outcome_bind_Ok in He as (s & _ & (t & _ & [= <-])%outcome_bind_Ok).
    do 2 (apply dict_set_wf; [done |]). apply attrs_dict_wf.
  - apply Forall_forall. intros l Hl.
    apply list_elem_of_lookup in Hl as [i Hi].
    destruct (Forall2_lookup_r _ _ _ _ _ Hlinks Hi) as (e & _ & He).
    apply outcome_bind_Ok in He as (s & Hs & (t & Ht & [= <-])%outcome_bind_Ok).
    apply index_lookup_lt in Hs, Ht. rewrite length_fmap in Hs, Ht.
    unfold link_in_range.
    rewrite dict_get_set_ne, dict_get_set_eq, dict_get_set_eq by done.
    apply andb_true_iff. split; apply bool_decide_eq_true_2; lia.
Qed.
End node_link.

(** ** Formatting a template of literal text and placeholders *)

Lemma outcome_map_cons (c : ascii) (s : string) (o : outcome string) :
  outcome_map (String c) (outcome_map (String.append s) o)
  = outcome_map (String.append (String c s)) o.
Proof. by destruct o. Qed.

Lemma outcome_map_nil (o : outcome string) : outcome_map (String.append "") o = o.
Proof. by destruct o. Qed.

Lemma no_percent_cons (c : ascii) (s : string) :
  substring_of "%" (String c s) = false →
  Ascii.eqb c "%" = false ∧ substring_of "%" s = false.
Proof.
  assert (substring_of "%" (String c s)
          = match (if Ascii.eqb "%" c then Some s else None) with
            | Some _ => true
            | None => substring_of "%" s
            end) as -> by reflexivity.
  rewrite (Ascii.eqb_sym "%" c). by destruct (Ascii.eqb c "%").
Qed.

Lemma format_literal (text r : string) (d : gmap string string) :
  substring_of "%" text = false →
  format_from Text (text +:+ r) d
  = outcome_map (String.append text) (format_from Text r d).
Proof.
  induction text as [|c text IH]; intros Hno.
  - sapp. by rewrite outcome_map_nil.
  - apply no_percent_cons in Hno as [Hc Hno]. sapp. simpl. rewrite Hc.
    by rewrite IH, outcome_map_cons.
Qed.

Lemma format_uniqueID (r : string) (d : gmap string string) :
  format_from Text ("%(uniqueID)s" +:+ r) d
  = match d !! "uniqueID" with
    | Some v => outcome_map (String.append v) (format_from Text r d)
    | None => Raise (KeyError "uniqueID")
    end.
Proof. reflexivity. Qed.

Lemma format_JSONData (r : string) (d : gmap string string) :
  format_from Text ("%(JSONData)s" +:+ r) d
  = match d !! "JSONData" with
    | Some v => outcome_map (String.append v) (format_from Text r d)
    | None => Raise (KeyError "JSONData")
    end.
Proof. reflexivity. Qed.

(** A template made of text without percent signs and of the two
    placeholders formats without error: every placeholder is replaced by its
    value and the text is kept. *)
Lemma pyformat_segments (segs : list segment) (d : gmap string string) (uid j : string) :
  Forall placeholder_only segs →
  d !! "uniqueID" = Some uid → d !! "JSONData" = Some j →
  pyformat (template_of segs) d = Ok (fill uid j segs).
Proof.
  intros Hsegs Huid Hj. unfold pyformat.
  induction Hsegs as [|g segs Hg Hsegs IH]; [done |].
  change (template_of (g :: segs)) with (segment_text g +:+ template_of segs).
  destruct g as [text | |]; simpl segment_text.
  - rewrite format_literal by done. by rewrite IH.
  - rewrite format_uniqueID, Huid, IH. done.
  - rewrite format_JSONData, Hj, IH. done.
Qed.

Lemma fill_split_json (uid j : string) (segs : list segment) :
  JSONData ∈ segs →
  fill uid j segs = fill uid j (before_json segs) +:+ j +:+ fill uid j (after_json segs).
Proof.
  induction segs as [|g segs IH]; [by intros ?%elem_of_nil |].
  intros Hin. destruct g as [text | |].
  - apply elem_of_cons in Hin as [? | Hin]; [done |].
    change (before_json (Lit text :: segs)) with (Lit text :: before_json segs).
    change (after_json (Lit text :: segs)) with (after_json segs).
    change (fill uid j (Lit text :: ?l)) with (text +:+ fill uid j l).
    by rewrite (IH Hin), app_assoc_s.
  - apply elem_of_cons in Hin as [? | Hin]; [done |].
    change (before_json (UniqueID :: segs)) with (UniqueID :: before_json segs).
    change (after_json (UniqueID :: segs)) with (after_json segs).
    change (fill uid j (UniqueID :: ?l)) with (uid +:+ fill uid j l).
    by rewrite (IH Hin), app_assoc_s.
  - done.
Qed.

(** The class attribute is the text of its own segments. *)
Lemma default_template_segments :
  template_of (segments_of DotGraph._template) = DotGraph._template
  ∧ Forall placeholder_only (segments_of DotGraph._template)
  ∧ JSONData ∈ segments_of DotGraph._template.
Proof.
  split_and!.
  - vm_compute. reflexivity.
  - apply Forall_forall. intros g Hg.
    assert (∀ l : list segment,
              forallb (λ g, match g with
                            | Lit t => negb (substring_of "%" t)
                            | _ => true end) l = true →
              Forall placeholder_only l) as Hchk.
    { induction l as [|x l IHl]; simpl; [constructor |].
      intros [Hx Hl]%andb_true_iff. constructor; [| by apply IHl].
      destruct x; simpl; [by apply negb_true_iff | done | done]. }
    revert g Hg. apply Forall_forall, Hchk. vm_compute. reflexivity.
  - apply list_elem_of_lookup. exists 3%nat. vm_compute. reflexivity.
Qed.

(** ** Paths and files *)
Section files.
Context `{Host}.

Lemma entry_of_direct (files : gmap string string) (path text : string) :
  files !! path = Some text → entry_of files path = Some path.
Proof. intros Hf. unfold entry_of. by rewrite Hf. Qed.

Lemma read_file_direct (files : gmap string string) (path text : string) :
  files !! path = Some text → read_file files path = Some text.
Proof. intros Hf. unfold read_file. by rewrite (entry_of_direct _ _ _ Hf). Qed.

(** An entry is a file of the map, and a path of the file looked for. *)
Lemma entry_of_Some (files : gmap string string) (path entry : string) :
  entry_of files path = Some entry →
  is_Some (files !! entry) ∧ (entry = path ∨ same_file path entry = true).
Proof.
  unfold entry_of. destruct (files !! path) as [text |] eqn:Hp.
  - intros [= <-]. split; [by exists text | by left].
  - intros Hh%head_Some_elem_of.
    apply list_elem_of_In, List.filter_In in Hh as [Hin Hs].
    apply list_elem_of_In, list_elem_of_fmap in Hin as ([k text] & -> & Hin).
    apply elem_of_map_to_list in Hin. split; [by exists text | by right].
Qed.

Lemma entry_of_None (files : gmap string string) (path : string) :
  entry_of files path = None
  ↔ files !! path = None ∧ ∀ k, is_Some (files !! k) → same_file path k = false.
Proof.
  unfold entry_of. split.
  - destruct (files !! path) as [text |] eqn:Hp; [done |].
    intros Hh%head_None. split; [done |]. intros k [text Hk].
    destruct (same_file path k) eqn:Hs; [| done].
    assert (In k (List.filter (same_file path) (map_to_list files).*1)) as Hin.
    { apply List.filter_In. split; [| done].
      apply list_elem_of_In, list_elem_of_fmap. exists (k, text).
      split; [done |]. by apply elem_of_map_to_list. }
    rewrite Hh in Hin. destruct Hin.
  - intros [-> Hall]. apply head_None.
    destruct (List.filter (same_file path) (map_to_list files).*1) as [| k l] eqn:Hl;
      [done |].
    assert (In k (List.filter (same_file path) (map_to_list files).*1)) as Hin
      by (rewrite Hl; by left).
    apply List.filter_In in Hin as [Hin Hs].
    apply list_elem_of_In, list_elem_of_fmap in Hin as ([k' text] & -> & Hin).
    apply elem_of_map_to_list in Hin. rewrite Hall in Hs; [done | by exists text].
Qed.

Lemma read_file_None (files : gmap string string) (path : string) :
  read_file files path = None ↔ entry_of files path = None.
Proof.
  unfold read_file. destruct (entry_of files path) as [entry |] eqn:He; [| done].
  apply entry_of_Some in He as [[text Ht] _]. by rewrite Ht.
Qed.

(** The entry that [open(path, 'w')] writes is a file of the map or [path]. *)
Lemma target_cases (files : gmap string string) (path : string) :
  target files path = path ∧ (∀ k, is_Some (files !! k) → k ≠ path → same_file path k = false)
  ∨ is_Some (files !! target files path).
Proof.
  unfold target. destruct (entry_of files path) as [entry |] eqn:He.
  - right. by apply entry_of_Some in He as [? _].
  - left. apply entry_of_None in He as [_ Hall]. split; [done |]. auto.
Qed.

(** An output path that is another path of another file than [path] is not
    written under [path]. *)
Lemma target_other (files : gmap string string) (path out : string) :
  out ≠ path → same_file out path = false → target files out ≠ path.
Proof.
  intros Hne Hs. unfold target.
  destruct (entry_of files out) as [entry |] eqn:He; [| done].
  apply entry_of_Some in He as [_ [-> | He]]; [done |].
  simpl. intros ->. by rewrite Hs in He.
Qed.

(** A file that no path of the map names is still missing once another file
    has been opened for writing. *)
Lemma read_file_None_open (files : gmap string string) (path out : string) :
  read_file files path = None → path ≠ out → same_file path out = false →
  read_file (<[target files out := ""]> files) path = None.
Proof.
  intros [Hp Hall]%read_file_None%entry_of_None Hne Hs.
  apply read_file_None, entry_of_None.
  destruct (target_cases files out) as [[Ht _] | Ht].
  - rewrite Ht. split; [by rewrite lookup_insert_ne |].
    intros k [text Hk]. destruct (decide (k = out)) as [-> | Hk']; [done |].
    rewrite lookup_insert_ne in Hk by done. apply Hall. by exists text.
  - assert (target files out ≠ path) as Hne'.
    { intros Heq. rewrite Heq, Hp in Ht. by destruct Ht. }
    split; [by rewrite lookup_insert_ne |].
    intros k [text Hk]. destruct (decide (k = target files out)) as [-> | Hk'].
    + by apply Hall.
    + rewrite lookup_insert_ne in Hk by done. apply Hall. by exists text.
Qed.
End files.

(** ** The object model *)

Lemma bind_at {A B} (m : M A) (k : A → M B) (w w' : world) (o : outcome A) :
  m w = (o, w') →
  bind m k w = match o with
               | Ok a => k a w'
               | Raise e => (Raise e, w')
               | Unmodelled => (Unmodelled, w')
               end.
Proof. intros Hm. unfold bind. rewrite Hm. by destruct o. Qed.

Lemma bind_pure {A B} (m : M A) (k : A → M B) (w : world) (o : outcome A) :
  m w = (o, w) →
  bind m k w = match o with
               | Ok a => k a w
               | Raise e => (Raise e, w)
               | Unmodelled => (Unmodelled, w)
               end.
Proof. apply bind_at. Qed.

Lemma print_nil (w : world) : print "" w = w.
Proof. destruct w. unfold print, set_stdout. simpl. by rewrite app_nil_r_s. Qed.

Lemma getattr_eq (self : nat) (a : string) (w : world) :
  getattr self a w = ((getattr self a w).1, w).
Proof.
  unfold getattr. destruct (heap w !! self) as [o |]; [| done].
  destruct (o !! a); [done |]. by destruct (class_attrs w !! a).
Qed.

(** Attribute lookup only looks at the instance and at the class. *)
Lemma getattr_frame (self : nat) (a : string) (w1 w2 : world) :
  heap w1 !! self = heap w2 !! self → class_attrs w1 = class_attrs w2 →
  (getattr self a w1).1 = (getattr self a w2).1.
Proof.
  intros Hh Hc. unfold getattr. rewrite Hh, Hc.
  destruct (heap w2 !! self) as [o |]; [| done].
  destruct (o !! a); [done |]. by destruct (class_attrs w2 !! a).
Qed.

Lemma getattr_own (self : nat) (a : string) (w : world) (o : gmap string value) (v : value) :
  heap w !! self = Some o → o !! a = Some v → (getattr self a w).1 = Ok v.
Proof. intros Ho Ha. unfold getattr. by rewrite Ho, Ha. Qed.

Lemma getattr_class (self : nat) (a : string) (w : world) (o : gmap string value) :
  heap w !! self = Some o → o !! a = None →
  (getattr self a w).1 = match class_attrs w !! a with
                         | Some v => Ok v
                         | None => Raise (AttributeError a)
                         end.
Proof.
  intros Ho Ha. unfold getattr. rewrite Ho, Ha. by destruct (class_attrs w !! a).
Qed.

Section views.
Context `{Host}.

Lemma read_dot_eq (path : string) (w : world) :
  read_dot path w
  = (graph_of_infile (fs w) (VStr path),
     print (printed_of_infile (fs w) (Ok (VStr path))) w).
Proof.
  unfold read_dot, graph_of_infile, printed_of_infile.
  destruct (read_file (fs w) path) as [text |]; [| by rewrite print_nil].
  destruct (is_ok (parse_dot text)); [by rewrite print_nil | done].
Qed.

(** What is printed depends on the instance, the class and the files. *)
Lemma printed_frame (self : nat) (w1 w2 : world) :
  heap w1 !! self = heap w2 !! self → class_attrs w1 = class_attrs w2 →
  fs w1 = fs w2 → printed self w1 = printed self w2.
Proof.
  intros Hh Hc Hf. unfold printed.
  by rewrite (getattr_frame self "infile" w1 w2), Hf.
Qed.

Lemma graph_eq (self : nat) (w : world) :
  DotGraph.graph self w
  = (outcome_bind (getattr self "infile" w).1 (graph_of_infile (fs w)),
     print (printed self w) w).
Proof.
  unfold DotGraph.graph, printed.
  rewrite (bind_pure _ _ _ _ (getattr_eq self "infile" w)).
  destruct (getattr self "infile" w).1 as [[path | e] | e |]; simpl;
    rewrite ?print_nil; try done.
  unfold bind, DotGraph.as_str, ret. apply read_dot_eq.
Qed.

Lemma dict_eq (self : nat) (w : world) :
  DotGraph.dict self w
  = (outcome_bind (getattr self "infile" w).1 (dict_of_infile (fs w)),
     print (printed self w) w).
Proof.
  unfold DotGraph.dict. rewrite (bind_at _ _ _ _ _ (graph_eq self w)).
  unfold dict_of_infile, lift.
  destruct (getattr self "infile" w).1 as [infile | e |]; simpl; try done.
  by destruct (graph_of_infile (fs w) infile).
Qed.

(** Nothing is printed when the graph is read. *)
Lemma printed_Ok (self : nat) (w : world) :
  is_ok (DotGraph.graph self w).1 = true → printed self w = "".
Proof.
  rewrite graph_eq. unfold printed, printed_of_infile, graph_of_infile. simpl.
  destruct (getattr self "infile" w).1 as [[path | e] | e |]; simpl; try done.
  destruct (read_file (fs w) path) as [text |]; [| done].
  by destruct (parse_dot text).
Qed.

Lemma dict_of_graph (self : nat) (w : world) :
  (DotGraph.dict self w).1 = outcome_bind (DotGraph.graph self w).1 node_link_data.
Proof.
  rewrite dict_eq, graph_eq. simpl. unfold dict_of_infile.
  by destruct (getattr self "infile" w).1 as [infile | e |].
Qed.

Lemma with_encoder_fields (self : nat) (w : world) :
  fs (with_encoder self w) = fs w ∧ ticks (with_encoder self w) = ticks w
  ∧ class_attrs (with_encoder self w) = class_attrs w
  ∧ stdout (with_encoder self w) = stdout w.
Proof.
  unfold with_encoder. destruct (heap w !! self); [| done].
  by destruct (is_ok _).
Qed.

Lemma with_encoder_other (self other : nat) (w : world) :
  other ≠ self → heap (with_encoder self w) !! other = heap w !! other.
Proof.
  intros Hne. unfold with_encoder. destruct (heap w !! self); [| done].
  destruct (is_ok _); [done |]. simpl. by rewrite lookup_insert_ne.
Qed.

(** The instance after [json]: unchanged, or one more attribute [_jenc]. *)
Lemma with_encoder_self (self : nat) (w : world) (o : gmap string value) :
  heap w !! self = Some o →
  (with_encoder self w = w ∧ is_Some (o !! "_jenc") ∨
   with_encoder self w = w ∧ o !! "_jenc" = None ∧ is_Some (class_attrs w !! "_jenc")) ∨
  (o !! "_jenc" = None ∧ class_attrs w !! "_jenc" = None ∧
   heap (with_encoder self w) !! self = Some (<["_jenc" := VEncoder MkJSONEncoder]> o)).
Proof.
  intros Ho. unfold with_encoder, getattr. rewrite Ho.
  destruct (o !! "_jenc") as [v |] eqn:Hj; simpl; [left; left; eauto |].
  destruct (class_attrs w !! "_jenc") as [v |] eqn:Hc; simpl; [left; right; eauto |].
  right. split_and!; [done.. |]. by rewrite lookup_insert_eq.
Qed.

Lemma with_encoder_attr (self : nat) (w : world) (a : string) :
  a ≠ "_jenc" →
  (getattr self a (with_encoder self w)).1 = (getattr self a w).1.
Proof.
  intros Ha. destruct (heap w !! self) as [o |] eqn:Ho.
  - destruct (with_encoder_self self w o Ho) as [[[-> _] | (-> & _)] | (_ & _ & Hw)];
      [done | done |].
    destruct (with_encoder_fields self w) as (_ & _ & Hc & _).
    unfold getattr. rewrite Hw, Ho, Hc. rewrite lookup_insert_ne by done.
    destruct (o !! a); [done |]. by destruct (class_attrs w !! a).
  - unfold with_encoder. by rewrite Ho.
Qed.

Lemma getattr_jenc_with_encoder (self : nat) (w : world) (o : gmap string value) :
  heap w !! self = Some o →
  (getattr self "_jenc" (with_encoder self w)).1
  = match (getattr self "_jenc" w).1 with
    | Ok v => Ok v
    | _ => Ok (VEncoder MkJSONEncoder)
    end.
Proof.
  intros Ho. unfold with_encoder. rewrite Ho.
  destruct (getattr self "_jenc" w).1 as [v | e |] eqn:Hg; simpl; [done | |].
  - eapply getattr_own; [apply lookup_insert_eq |]. apply lookup_insert_eq.
  - eapply getattr_own; [apply lookup_insert_eq |]. apply lookup_insert_eq.
Qed.

Lemma dict_with_encoder (self : nat) (w : world) :
  (DotGraph.dict self (with_encoder self w)).1 = (DotGraph.dict self w).1.
Proof.
  rewrite !dict_eq. simpl. rewrite with_encoder_attr by done.
  by destruct (with_encoder_fields self w) as (-> & _).
Qed.

Lemma printed_with_encoder (self : nat) (w : world) :
  printed self (with_encoder self w) = printed self w.
Proof.
  unfold printed. rewrite with_encoder_attr by done.
  by destruct (with_encoder_fields self w) as (-> & _).
Qed.

Lemma json_eq (self : nat) (w : world) :
  DotGraph.json self w
  = match heap w !! self with
    | Some _ =>
        (outcome_bind (getattr self "_jenc" (with_encoder self w)).1
           (λ jenc, encode_with jenc (DotGraph.dict self w).1),
         print (printed self w) (with_encoder self w))
    | None => (Raise (AttributeError "_jenc"), w)
    end.
Proof.
  unfold DotGraph.json. unfold bind at 1. unfold hasattr at 1.
  unfold bind at 1.
  destruct (heap w !! self) as [o |] eqn:Ho.
  - assert ((if negb (is_ok (getattr self "_jenc" w).1)
             then setattr self "_jenc" (VEncoder MkJSONEncoder) else ret ()) w
            = (Ok (), with_encoder self w)) as ->.
    { unfold with_encoder, setattr, ret. rewrite Ho.
      destruct (is_ok _); simpl; [done | by rewrite Ho]. }
    rewrite (bind_pure _ _ _ _ (getattr_eq self "_jenc" (with_encoder self w))).
    assert (∃ jenc, (getattr self "_jenc" (with_encoder self w)).1 = Ok jenc)
      as [jenc ->].
    { rewrite (getattr_jenc_with_encoder self w o Ho).
      destruct (getattr self "_jenc" w).1; by eexists. }
    simpl. rewrite <- dict_with_encoder, <- printed_with_encoder.
    rewrite (bind_at _ _ _ _ _ (dict_eq self (with_encoder self w))).
    rewrite dict_eq. simpl. unfold encode_with.
    destruct (outcome_bind _ _) as [d | e |]; simpl; [| done | done].
    by destruct jenc.
  - unfold getattr, setattr. rewrite Ho. simpl. by rewrite Ho.
Qed.

Lemma with_encoder_set_ticks (self : nat) (n : nat) (w : world) :
  with_encoder self (set_ticks n w) = set_ticks n (with_encoder self w).
Proof.
  unfold with_encoder. simpl heap. destruct (heap w !! self) as [o |]; [| done].
  rewrite (getattr_frame self "_jenc" (set_ticks n w) w) by done.
  by destruct (is_ok _).
Qed.

(** The outcome of [json] does not depend on the clock. *)
Lemma json_set_ticks (self : nat) (n : nat) (w : world) :
  (DotGraph.json self (set_ticks n w)).1 = (DotGraph.json self w).1
  ∧ (DotGraph.json self (set_ticks n w)).2 = set_ticks n (DotGraph.json self w).2.
Proof.
  rewrite !json_eq. simpl heap. destruct (heap w !! self) as [o |] eqn:Ho; [| done].
  rewrite with_encoder_set_ticks.
  rewrite (printed_frame self (set_ticks n w) w) by done.
  simpl. split; [| done].
  rewrite (getattr_frame self "_jenc" (set_ticks n (with_encoder self w))
             (with_encoder self w)) by done.
  rewrite !dict_eq. simpl.
  by rewrite (getattr_frame self "infile" (set_ticks n w) w).
Qed.

Lemma formatDict_eq (self : nat) (w : world) :
  DotGraph.formatDict self w
  = let w1 := set_ticks (S (ticks w)) w in
    (outcome_map (λ j, <["JSONData" := j]> (<["uniqueID" := unique_id (clock (ticks w))]> ∅))
       (DotGraph.json self w1).1,
     (DotGraph.json self w1).2).
Proof.
  unfold DotGraph.formatDict, bind, time_time, ret. simpl.
  destruct (DotGraph.json self (set_ticks (S (ticks w)) w)) as [[j | e |] w2]; done.
Qed.

Lemma html_eq (self : nat) (w : world) :
  DotGraph.html self w
  = let r := DotGraph.formatDict self w in
    (outcome_bind r.1 (λ fd,
       outcome_bind (getattr self "_template" w).1 (λ template,
         match template with
         | VStr t => pyformat t fd
         | VEncoder _ => Raise (TypeError "unsupported operand type(s) for %")
         end)),
     r.2).
Proof.
  unfold DotGraph.html. unfold bind at 1.
  destruct (DotGraph.formatDict self w) as [[fd | e |] w2] eqn:Hfd; simpl; try done.
  rewrite (bind_pure _ _ _ _ (getattr_eq self "_template" w2)).
  assert ((getattr self "_template" w2).1 = (getattr self "_template" w).1) as ->.
  { rewrite formatDict_eq in Hfd. simpl in Hfd. injection Hfd as _ <-.
    destruct (json_set_ticks self (S (ticks w)) w) as [_ ->].
    rewrite json_eq. destruct (heap w !! self) eqn:Ho; simpl.
    - rewrite (getattr_frame self "_template"
                 (set_ticks (S (ticks w)) (print (printed self w) (with_encoder self w)))
                 (with_encoder self w)) by done.
      by apply with_encoder_attr.
    - by apply getattr_frame. }
  by destruct (getattr self "_template" w).1 as [[t | e] | e |].
Qed.

Lemma html_world (self : nat) (w : world) :
  (DotGraph.html self w).2 = set_ticks (S (ticks w)) (DotGraph.json self w).2.
Proof.
  rewrite html_eq, formatDict_eq. simpl.
  by destruct (json_set_ticks self (S (ticks w)) w) as [_ ->].
Qed.

(** [render] hands the text of [html] to the wrapper, which changes nothing
    in the world. *)
Lemma render_eq (self : nat) (w : world) :
  DotGraph.render self w
  = (outcome_bind (DotGraph.html self w).1 (displayed (fs w)),
     (DotGraph.html self w).2).
Proof.
  assert (fs (DotGraph.html self w).2 = fs w) as Hfs.
  { rewrite html_world. simpl. rewrite json_eq.
    destruct (heap w !! self); [| done]. simpl.
    by destruct (with_encoder_fields self w) as (-> & _). }
  unfold DotGraph.render. unfold bind at 1.
  destruct (DotGraph.html self w) as [[h | e |] w'] eqn:Hh; simpl in *; try done.
  unfold bind, display_HTML, displayed, ret, _repr_html_. rewrite Hfs.
  destruct (starts_with "http" h); [done |].
  destruct (path_exists (fs w) h); [| done].
  by destruct (read_file (fs w) h).
Qed.
End views.

(** ** Construction *)

Lemma new_eq (infile : string) (template : option string) (w : world) :
  let self := fresh (dom (heap w)) in
  let attrs :=
    <["infile" := VStr infile]>
      (match template with
       | Some t => <["_template" := VStr t]> ∅
       | None => ∅
       end) in
  heap w !! self = None ∧
  DotGraph.new infile template w
  = (Ok self, set_heap (<[self := attrs]> (heap w)) w).
Proof.
  intros self attrs. split.
  { apply not_elem_of_dom, is_fresh. }
  unfold DotGraph.new, DotGraph.__init__. fold self.
  destruct template as [t |]; unfold bind, setattr, ret; simpl;
    rewrite ?lookup_insert_eq; simpl; rewrite ?lookup_insert_eq;
    rewrite ?insert_insert_eq; done.
Qed.

(** What construction does, in full. *)
Lemma new_spec (infile : string) (template : option string) (w : world) :
  ∃ self w',
    DotGraph.new infile template w = (Ok self, w')
    ∧ heap w !! self = None
    ∧ (getattr self "infile" w').1 = Ok (VStr infile)
    ∧ (getattr self "_template" w').1
      = match template with
        | Some t => Ok (VStr t)
        | None => (match class_attrs w !! "_template" with
                   | Some v => Ok v
                   | None => Raise (AttributeError "_template")
                   end)
        end
    ∧ fs w' = fs w ∧ stdout w' = stdout w ∧ ticks w' = ticks w
    ∧ class_attrs w' = class_attrs w
    ∧ ∀ files, DotGraph.new infile template (set_fs files w) = (Ok self, set_fs files w').
Proof.
  destruct (new_eq infile template w) as [Hfresh Hnew].
  eexists _, _. split; [exact Hnew |]. split; [exact Hfresh |].
  split_and!; try done.
  - eapply getattr_own; [apply lookup_insert_eq |]. apply lookup_insert_eq.
  - destruct template as [t |].
    + eapply getattr_own; [apply lookup_insert_eq |].
      rewrite lookup_insert_ne by done. apply lookup_insert_eq.
    + erewrite getattr_class; [done | apply lookup_insert_eq |].
      by rewrite lookup_insert_ne.
  - intros files. by destruct (new_eq infile template (set_fs files w)) as [_ ->].
Qed.

(** C7: construction stores the path and, when one is given, the template on
    the new instance; it reads and writes no file (the result is the same
    whatever the files are, so a path that names no file is accepted) and it
    never raises. *)
Theorem construct_stores_path_without_io
    (infile : string) (template : option string) (w : world) :
  ∃ self w',
    DotGraph.new infile template w = (Ok self, w')
    ∧ heap w !! self = None
    ∧ (getattr self "infile" w').1 = Ok (VStr infile)
    ∧ (getattr self "_template" w').1
      = match template with
        | Some t => Ok (VStr t)
        | None => (match class_attrs w !! "_template" with
                   | Some v => Ok v
                   | None => Raise (AttributeError "_template")
                   end)
        end
    ∧ fs w' = fs w ∧ stdout w' = stdout w ∧ ticks w' = ticks w
    ∧ class_attrs w' = class_attrs w
    ∧ ∀ files, DotGraph.new infile template (set_fs files w) = (Ok self, set_fs files w').
Proof. apply new_spec. Qed.

(** ** Frame properties of the views *)
Section frames.
Context `{Host}.

Lemma dict_frame (self : nat) (w1 w2 : world) :
  heap w1 !! self = heap w2 !! self → class_attrs w1 = class_attrs w2 →
  fs w1 = fs w2 →
  (DotGraph.dict self w1).1 = (DotGraph.dict self w2).1.
Proof.
  intros Hh Hc Hf. rewrite !dict_eq. simpl.
  by rewrite (getattr_frame self "infile" w1 w2), Hf.
Qed.

Lemma json_frame (self : nat) (w1 w2 : world) :
  heap w1 !! self = heap w2 !! self → class_attrs w1 = class_attrs w2 →
  fs w1 = fs w2 →
  (DotGraph.json self w1).1 = (DotGraph.json self w2).1.
Proof.
  intros Hh Hc Hf. rewrite !json_eq. rewrite Hh.
  destruct (heap w2 !! self) as [o |] eqn:Ho; [| done]. simpl.
  rewrite (getattr_jenc_with_encoder self w1 o) by by rewrite Hh.
  rewrite (getattr_jenc_with_encoder self w2 o) by done.
  rewrite (getattr_frame self "_jenc" w1 w2) by by rewrite ?Hh, ?Ho.
  by rewrite (dict_frame self w1 w2) by by rewrite ?Hh, ?Ho.
Qed.

Lemma html_frame (self : nat) (w1 w2 : world) :
  heap w1 !! self = heap w2 !! self → class_attrs w1 = class_attrs w2 →
  fs w1 = fs w2 → ticks w1 = ticks w2 →
  (DotGraph.html self w1).1 = (DotGraph.html self w2).1.
Proof.
  intros Hh Hc Hf Ht. rewrite !html_eq, !formatDict_eq. simpl. rewrite Ht.
  rewrite (json_frame self (set_ticks (S (ticks w2)) w1) (set_ticks (S (ticks w2)) w2))
    by done.
  by rewrite (getattr_frame self "_template" w1 w2).
Qed.

(** [html] with the template [t] in force. *)
Lemma html_with_template (self : nat) (w : world) (t : string) :
  (getattr self "_template" w).1 = Ok (VStr t) →
  DotGraph.html self w
  = (outcome_bind (DotGraph.formatDict self w).1 (pyformat t),
     (DotGraph.formatDict self w).2).
Proof.
  intros Ht. rewrite html_eq. simpl. rewrite Ht.
  by destruct (DotGraph.formatDict self w).1.
Qed.
End frames.

(** C10: a template given at construction is stored on the new instance
    only.  The class attributes and every other instance are as before, so
    any other instance resolves [_template] and renders as it did, and an
    instance constructed afterwards without a template renders with the
    class's default template. *)
Theorem custom_template_on_instance_only `{Host}
    (infile t : string) (w : world) :
  class_attrs w !! "_template" = Some (VStr DotGraph._template) →
  ∃ self w',
    DotGraph.new infile (Some t) w = (Ok self, w')
    ∧ (getattr self "_template" w').1 = Ok (VStr t)
    ∧ class_attrs w' = class_attrs w
    ∧ (∀ other, other ≠ self →
         heap w' !! other = heap w !! other
         ∧ (getattr other "_template" w').1 = (getattr other "_template" w).1
         ∧ (DotGraph.html other w').1 = (DotGraph.html other w).1)
    ∧ (∀ infile2, ∃ self2 w'',
         DotGraph.new infile2 None w' = (Ok self2, w'')
         ∧ class_attrs w'' = class_attrs w
         ∧ (getattr self2 "_template" w'').1 = Ok (VStr DotGraph._template)
         ∧ DotGraph.html self2 w''
           = (outcome_bind (DotGraph.formatDict self2 w'').1 (pyformat DotGraph._template),
              (DotGraph.formatDict self2 w'').2)).
Proof.
  intros Hclass.
  destruct (new_eq infile (Some t) w) as [Hfresh Hnew].
  eexists _, _. split; [exact Hnew |]. split.
  { eapply getattr_own; [apply lookup_insert_eq |].
    rewrite lookup_insert_ne by done. apply lookup_insert_eq. }
  split; [done |]. split.
  - intros other Hne.
    assert (heap (set_heap (<[fresh (dom (heap w)) :=
                               <["infile" := VStr infile]> (<["_template" := VStr t]> ∅)]>
                              (heap w)) w) !! other = heap w !! other) as Hother.
    { simpl. by rewrite lookup_insert_ne. }
    split; [exact Hother |]. split.
    + by apply getattr_frame.
    + by apply html_frame.
  - intros infile2.
    match goal with |- context [DotGraph.new infile2 None ?w1] =>
      destruct (new_eq infile2 None w1) as [Hfresh2 Hnew2] end.
    eexists _, _. split; [exact Hnew2 |]. split; [done |].
    match goal with |- ?P ∧ _ => assert P as Htpl end.
    { erewrite getattr_class; [| apply lookup_insert_eq | by rewrite lookup_insert_ne].
      simpl. by rewrite Hclass. }
    split; [exact Htpl |]. by apply html_with_template.
Qed.

Lemma custom_template_on_instance_only_witness :
  ∃ self w',
    DotGraph.new "other.dot" (Some static_template) abc_world = (Ok self, w')
    ∧ class_attrs w' = class_attrs abc_world
    ∧ (DotGraph.html (H := ticking_host) 0 w').1
      = (DotGraph.html (H := ticking_host) 0 abc_world).1.
Proof.
  destruct (custom_template_on_instance_only (H := ticking_host)
              "other.dot" static_template abc_world)
    as (self & w' & Hnew & _ & Hclass & Hother & _).
  - vm_compute. reflexivity.
  - exists self, w'. split_and!; [done | done |].
    apply Hother. intros <-. vm_compute in Hnew. discriminate Hnew.
Defined.

(** What an access to [json] does to the world and what it returns. *)
Lemma json_access `{Host} (self : nat) (w : world) (o : gmap string value) :
  heap w !! self = Some o →
  let w' := (DotGraph.json self w).2 in
  fs w' = fs w ∧ ticks w' = ticks w ∧ class_attrs w' = class_attrs w
  ∧ stdout w' = stdout (DotGraph.dict self w).2
  ∧ (∀ other, other ≠ self → heap w' !! other = heap w !! other)
  ∧ (∃ o', heap w' !! self = Some o'
           ∧ (∀ a, a ≠ "_jenc" → o' !! a = o !! a)
           ∧ o' = if is_ok (getattr self "_jenc" w).1 then o
                  else <["_jenc" := VEncoder MkJSONEncoder]> o)
  ∧ (∃ jenc, (getattr self "_jenc" w').1 = Ok jenc
             ∧ (DotGraph.json self w).1 = encode_with jenc (DotGraph.dict self w).1
             ∧ (DotGraph.dict self w').1 = (DotGraph.dict self w).1).
Proof.
  intros Ho w'. subst w'. rewrite json_eq, Ho. simpl.
  destruct (with_encoder_fields self w) as (Hf & Ht & Hc & Hs).
  split_and!; try done.
  - rewrite dict_eq. simpl. by rewrite Hs.
  - intros other Hne. by apply with_encoder_other.
  - unfold with_encoder. rewrite Ho.
    destruct (is_ok (getattr self "_jenc" w).1).
    + exists o. by split_and!.
    + eexists. simpl. split; [apply lookup_insert_eq |]. split; [| done].
      intros a Ha. by rewrite lookup_insert_ne.
  - rewrite (getattr_frame self "_jenc" (print (printed self w) (with_encoder self w))
               (with_encoder self w)) by done.
    rewrite (dict_frame self (print (printed self w) (with_encoder self w))
               (with_encoder self w)) by done.
    rewrite (getattr_jenc_with_encoder self w o Ho).
    destruct (getattr self "_jenc" w).1 as [v | e |]; eexists; split_and!;
      try done; apply dict_with_encoder.
Qed.

(** C6: an access to [json] adds at most the attribute [_jenc] to the
    instance (the encoder, when [_jenc] did not resolve).  It changes no
    file, no class attribute and no other instance, does not read the clock,
    and prints nothing but what [dict] prints in the same world (the
    parser's diagnostic for a text it rejects).  The string it returns is
    not stored: it is what [dict] returns in the same world, encoded by the
    encoder found in [_jenc]; the failure of [dict] is the failure of
    [json], and with a string in [_jenc] the call fails with the
    [TypeError] of the string's [encode] once [dict] has returned. *)
Theorem json_memoizes_only_encoder `{Host} (self : nat) (w : world) (o : gmap string value) :
  heap w !! self = Some o →
  let w' := (DotGraph.json self w).2 in
  fs w' = fs w ∧ ticks w' = ticks w ∧ class_attrs w' = class_attrs w
  ∧ stdout w' = stdout (DotGraph.dict self w).2
  ∧ (∀ other, other ≠ self → heap w' !! other = heap w !! other)
  ∧ (∃ o', heap w' !! self = Some o'
           ∧ (∀ a, a ≠ "_jenc" → o' !! a = o !! a)
           ∧ o' = if is_ok (getattr self "_jenc" w).1 then o
                  else <["_jenc" := VEncoder MkJSONEncoder]> o)
  ∧ (∃ jenc, (getattr self "_jenc" w').1 = Ok jenc
             ∧ (DotGraph.json self w).1
               = outcome_bind (DotGraph.dict self w).1 (λ d,
                   match jenc with
                   | VEncoder e => Ok (JSONEncoder_encode e d)
                   | VStr _ => Raise (TypeError "encode() argument 1 must be str, not dict")
                   end)
             ∧ (DotGraph.dict self w').1 = (DotGraph.dict self w).1).
Proof. apply json_access. Qed.

Lemma json_memoizes_only_encoder_witness :
  fs (DotGraph.json (H := ticking_host) 0 abc_world).2 = fs abc_world
  ∧ class_attrs (DotGraph.json (H := ticking_host) 0 abc_world).2 = class_attrs abc_world
  ∧ ∃ o', heap (DotGraph.json (H := ticking_host) 0 abc_world).2 !! 0%nat = Some o'
          ∧ ∀ a, a ≠ "_jenc" →
                 o' !! a = (<["infile" := VStr "abc.dot"]> ∅ : gmap string value) !! a.
Proof.
  destruct (json_memoizes_only_encoder (H := ticking_host) 0 abc_world
              (<["infile" := VStr "abc.dot"]> ∅))
    as (Hf & _ & Hc & _ & _ & (o' & Ho' & Hattrs & _) & _).
  - vm_compute. reflexivity.
  - split_and!; [exact Hf | exact Hc |]. exists o'. by split.
Defined.

(** C8, as corrected: whenever [html] returns a text that neither starts
    with 'http' nor is the path of something that exists, [render] returns
    that text, and leaves the world as [html] leaves it. *)
Theorem render_returns_html_text `{Host} (self : nat) (w w' : world) (h : string) :
  DotGraph.html self w = (Ok h, w') →
  starts_with "http" h = false →
  path_exists (fs w') h = false →
  DotGraph.render self w = (Ok h, w').
Proof.
  intros Hh Hhttp Hpath. unfold DotGraph.render.
  rewrite (bind_at _ _ _ _ _ Hh). unfold bind, display_HTML, ret, _repr_html_.
  by rewrite Hhttp, Hpath.
Qed.

Lemma render_returns_html_text_witness :
  DotGraph.render (H := ticking_host) 0 abc_world
  = (Ok abc_html, (DotGraph.html (H := ticking_host) 0 abc_world).2).
Proof.
  apply (render_returns_html_text (H := ticking_host) 0 abc_world).
  - vm_compute. reflexivity.
  - vm_compute. reflexivity.
  - vm_compute. reflexivity.
Defined.

(** C8 as stated fails: an instance whose template is the path of a file
    that exists returns that path from [html], and the text of the file
    from [render]. *)
Lemma render_reads_named_file :
  (DotGraph.html (H := ticking_host) 0 named_world).1 = Ok "abc.dot"
  ∧ (DotGraph.render (H := ticking_host) 0 named_world).1 = Ok abc_text
  ∧ abc_text ≠ "abc.dot".
Proof. split_and!; [vm_compute; reflexivity | vm_compute; reflexivity | discriminate]. Qed.

(** ** The node-link view *)

Lemma dict_Ok_node_link `{Host} (self : nat) (w : world) (d : jvalue) :
  (DotGraph.dict self w).1 = Ok d → ∃ g, node_link_data g = Ok d.
Proof.
  rewrite dict_of_graph. intros (g & _ & Hg)%outcome_bind_Ok. by exists g.
Qed.

(** The example of section 8 of the specification: the nodes A, B, C in
    the parser's order and the links 0 -> 1 and 1 -> 2. *)
Example dict_abc :
  (DotGraph.dict (H := ticking_host) 0 abc_world).1 = Ok abc_dict.
Proof. vm_compute. reflexivity. Qed.

(** C5: whenever [dict] returns a mapping, each of its links has a source and
    a target index in [[0, len(nodes))] of the nodes of the same mapping. *)
Theorem dict_links_in_range `{Host} (self : nat) (w : world) (d : jvalue) :
  (DotGraph.dict self w).1 = Ok d →
  ∃ nodes links,
    nodes_of d = Some nodes ∧ links_of d = Some links
    ∧ Forall (λ link, link_in_range (List.length nodes) link = true) links.
Proof.
  intros (g & Hg)%dict_Ok_node_link.
  destruct (node_link_data_shape g d Hg) as (nodes & links & -> & Hn & _ & _ & Hr).
  exists nodes, links. split_and!; [done | done |]. by rewrite Hn.
Qed.

Lemma dict_links_in_range_witness :
  ∃ nodes links,
    nodes_of abc_dict = Some nodes ∧ links_of abc_dict = Some links
    ∧ Forall (λ link, link_in_range (List.length nodes) link = true) links.
Proof.
  apply (dict_links_in_range (H := ticking_host) 0 abc_world abc_dict).
  vm_compute. reflexivity.
Defined.

Lemma node_link_data_wf (g : nxgraph) (d : jvalue) :
  node_link_data g = Ok d → json_wf d.
Proof.
  intros Hg.
  destruct (node_link_data_shape g d Hg) as (nodes & links & -> & _ & Hn & Hl & _).
  apply json_wf_obj. split.
  - apply (bool_decide_unpack _). vm_compute. reflexivity.
  - apply Forall_cons; split; [done |].
    apply Forall_cons; split; [done |].
    apply Forall_cons; split; [apply attrs_dict_wf |].
    apply Forall_cons; split; [by apply json_wf_arr |].
    apply Forall_cons; split; [by apply json_wf_arr | constructor].
Qed.

(** C2: the text that [json] returns, parsed back, is the mapping that [dict]
    returns in the same world. *)
Theorem json_loads_round_trip `{Host} (self : nat) (w : world) (s : string) :
  (DotGraph.json self w).1 = Ok s →
  ∃ d, (DotGraph.dict self w).1 = Ok d ∧ loads s = Some d.
Proof.
  rewrite json_eq. destruct (heap w !! self) as [o |]; [| done]. simpl.
  intros (jenc & _ & Hs)%outcome_bind_Ok. unfold encode_with in Hs.
  apply outcome_bind_Ok in Hs as (d & Hd & Hs).
  destruct jenc as [? | e]; [done |]. injection Hs as <-.
  exists d. split; [done |].
  destruct (dict_Ok_node_link self w d Hd) as [g Hg].
  by apply loads_encode, (node_link_data_wf g).
Qed.

Lemma json_loads_round_trip_witness :
  ∃ d, (DotGraph.dict (H := ticking_host) 0 abc_world).1 = Ok d
       ∧ loads (encode abc_dict) = Some d.
Proof.
  apply (json_loads_round_trip (H := ticking_host) 0 abc_world (encode abc_dict)).
  vm_compute. reflexivity.
Defined.

(** ** The HTML view *)
Section html.
Context `{Host}.

(** [html] on a template of literal text and placeholders: the text of the
    template with the identifier and the JSON text in place, or the failure
    of [json]. *)
Lemma html_segments (self : nat) (w : world) (segs : list segment) :
  Forall placeholder_only segs →
  (getattr self "_template" w).1 = Ok (VStr (template_of segs)) →
  (DotGraph.html self w).1
  = outcome_map (λ j, fill (unique_id (clock (ticks w))) j segs)
      (DotGraph.json self w).1.
Proof.
  intros Hsegs Ht. rewrite (html_with_template self w _ Ht), formatDict_eq. simpl.
  destruct (json_set_ticks self (S (ticks w)) w) as [-> _].
  destruct (DotGraph.json self w).1 as [j | e |]; simpl; [| done | done].
  apply pyformat_segments; [done | |].
  - rewrite lookup_insert_ne by done. apply lookup_insert_eq.
  - apply lookup_insert_eq.
Qed.

Lemma formatDict_Ok (self : nat) (w w1 : world) (fd : gmap string string) :
  DotGraph.formatDict self w = (Ok fd, w1) →
  ∃ j, (DotGraph.json self w).1 = Ok j
       ∧ fd = <["JSONData" := j]> (<["uniqueID" := unique_id (clock (ticks w))]> ∅)
       ∧ w1 = set_ticks (S (ticks w)) (DotGraph.json self w).2.
Proof.
  rewrite formatDict_eq. simpl.
  destruct (json_set_ticks self (S (ticks w)) w) as [-> ->].
  destruct (DotGraph.json self w).1 as [j | e |]; simpl; [| done | done].
  intros [= <- <-]. by exists j.
Qed.

(** A second access to [json] returns what the first returned. *)
Lemma json_again (self : nat) (w : world) :
  (DotGraph.json self (DotGraph.json self w).2).1 = (DotGraph.json self w).1.
Proof.
  destruct (heap w !! self) as [o |] eqn:Ho.
  - destruct (json_access self w o Ho)
      as (Hf & _ & Hc & _ & _ & (o' & Ho' & _ & _) & (jenc & Hj & Hr & Hd)).
    rewrite Hr. rewrite (json_eq self (DotGraph.json self w).2), Ho'. simpl.
    rewrite (getattr_jenc_with_encoder _ _ o' Ho'), Hj. simpl. by rewrite Hd.
  - rewrite (json_eq self w), Ho. simpl. by rewrite json_eq, Ho.
Qed.
End html.

(** C9: with a custom template that has only the two placeholders, [html]
    returns the template's text with the identifier and the JSON text in
    place of the placeholders whenever [json] returns; formatting adds no
    error of its own (the only failures are those of [json]). *)
Theorem html_custom_template_substitutes `{Host}
    (segs : list segment) (infile : string) (w0 : world) :
  Forall placeholder_only segs →
  ∃ self w,
    DotGraph.new infile (Some (template_of segs)) w0 = (Ok self, w)
    ∧ (DotGraph.html self w).1
      = outcome_map (λ j, fill (unique_id (clock (ticks w))) j segs)
          (DotGraph.json self w).1.
Proof.
  intros Hsegs.
  destruct (new_spec infile (Some (template_of segs)) w0)
    as (self & w & Hnew & _ & _ & Ht & _).
  exists self, w. split; [done |]. by apply html_segments.
Qed.

Lemma html_custom_template_substitutes_witness :
  ∃ self w,
    DotGraph.new "abc.dot" (Some (template_of div_segments)) (initial_world abc_files)
    = (Ok self, w)
    ∧ (DotGraph.html (H := ticking_host) self w).1
      = outcome_map (λ j, fill (unique_id (H := ticking_host) (clock (ticks w))) j
                            div_segments)
          (DotGraph.json (H := ticking_host) self w).1.
Proof.
  apply (html_custom_template_substitutes (H := ticking_host) div_segments).
  repeat constructor.
Defined.

(** C3, as corrected: with the default template in force, the text that
    [html] returns is the template's text up to the placeholder, then the
    exact JSON text that [json] returns in the same world, then the rest of
    the template; the JSON text stands between the opening of the script
    block and its closing tag. *)
Theorem html_default_template_embeds_json `{Host} (self : nat) (w : world) (h : string) :
  (getattr self "_template" w).1 = Ok (VStr DotGraph._template) →
  (DotGraph.html self w).1 = Ok h →
  ∃ j before after,
    (DotGraph.json self w).1 = Ok j
    ∧ h = (before +:+ "<script>" +:+ nl +:+ "    var graph = ")
          +:+ j
          +:+ (";" +:+ after +:+ "</script>" +:+ nl +:+ "    ").
Proof.
  intros Ht Hh.
  destruct default_template_segments as (Htext & Hsegs & Hin).
  rewrite <- Htext in Ht.
  pose proof (html_segments self w _ Hsegs Ht) as Heq.
  rewrite Hh in Heq. clear Hh Ht Htext Hsegs.
  remember (segments_of DotGraph._template) as segs eqn:Esegs.
  remember (unique_id (clock (ticks w))) as uid eqn:Euid.
  destruct (DotGraph.json self w).1 as [j | e |]; [| discriminate Heq | discriminate Heq].
  injection Heq as ->.
  rewrite (fill_split_json uid j _ Hin).
  assert (∃ s0 s1 s2 s3 s4,
            before_json segs
            = [Lit s0; UniqueID; Lit (s1 +:+ "<script>" +:+ nl +:+ "    var graph = ")]
            ∧ after_json segs
              = [Lit (";" +:+ s2); UniqueID; Lit s3; UniqueID;
                 Lit (s4 +:+ "</script>" +:+ nl +:+ "    ")])
    as (s0 & s1 & s2 & s3 & s4 & -> & ->).
  { pose (lit := λ i : nat,
             match segs !! i with Some (Lit t) => t | _ => "" end).
    exists (lit 0%nat), (chop 25 (lit 2%nat)),
      (String.substring 1 (String.length (lit 4%nat)) (lit 4%nat)),
      (lit 6%nat), (chop 14 (lit 8%nat)).
    subst lit segs. split; vm_compute; reflexivity. }
  exists j, (s0 +:+ uid +:+ s1), (s2 +:+ uid +:+ s3 +:+ uid +:+ s4).
  split; [done |].
  change (fill uid j [Lit s0; UniqueID; Lit (s1 +:+ "<script>" +:+ nl +:+ "    var graph = ")])
    with (s0 +:+ uid +:+ (s1 +:+ "<script>" +:+ nl +:+ "    var graph = ") +:+ "").
  change (fill uid j [Lit (";" +:+ s2); UniqueID; Lit s3; UniqueID;
                      Lit (s4 +:+ "</script>" +:+ nl +:+ "    ")])
    with ((";" +:+ s2) +:+ uid +:+ s3 +:+ uid
          +:+ (s4 +:+ "</script>" +:+ nl +:+ "    ") +:+ "").
  rewrite !app_nil_r_s, !app_assoc_s. done.
Qed.

Lemma html_default_template_embeds_json_witness :
  ∃ j before after,
    (DotGraph.json (H := ticking_host) 0 abc_world).1 = Ok j
    ∧ abc_html = (before +:+ "<script>" +:+ nl +:+ "    var graph = ")
                 +:+ j
                 +:+ (";" +:+ after +:+ "</script>" +:+ nl +:+ "    ").
Proof.
  apply (html_default_template_embeds_json (H := ticking_host) 0 abc_world abc_html).
  - vm_compute. reflexivity.
  - vm_compute. reflexivity.
Defined.

(** C3 as stated fails: an instance constructed with a template that has no
    [%(JSONData)s] returns that template unchanged, and the JSON text does
    not occur in it. *)
Lemma html_without_json_placeholder :
  (DotGraph.html (H := ticking_host) 0 static_world).1 = Ok static_template
  ∧ (DotGraph.json (H := ticking_host) 0 static_world).1 = Ok (encode abc_dict)
  ∧ substring_of (encode abc_dict) static_template = false.
Proof. split_and!; vm_compute; reflexivity. Qed.

(** C4, as corrected: two successive evaluations of [html]'s [formatDict] on
    the same instance carry the same [JSONData]; each [uniqueID] is "Graph"
    and the hash of the clock reading of its own call, so the two differ
    exactly when the two hashes differ.  The two [html] results are the
    active template formatted with these two dictionaries. *)
Theorem html_twice_same_JSONData `{Host}
    (self : nat) (w w1 w2 : world) (fd1 fd2 : gmap string string) :
  DotGraph.formatDict self w = (Ok fd1, w1) →
  DotGraph.formatDict self w1 = (Ok fd2, w2) →
  fs w1 = fs w
  ∧ is_Some (fd1 !! "JSONData")
  ∧ fd1 !! "JSONData" = fd2 !! "JSONData"
  ∧ fd1 !! "uniqueID" = Some (unique_id (clock (ticks w)))
  ∧ fd2 !! "uniqueID" = Some (unique_id (clock (S (ticks w))))
  ∧ (fd1 !! "uniqueID" ≠ fd2 !! "uniqueID"
     ↔ hash_float (clock (ticks w)) ≠ hash_float (clock (S (ticks w))))
  ∧ (∀ t, (getattr self "_template" w).1 = Ok (VStr t) →
          (DotGraph.html self w).1 = pyformat t fd1
          ∧ (DotGraph.html self w1).1 = pyformat t fd2).
Proof.
  intros Hfd1 Hfd2.
  destruct (formatDict_Ok self w w1 fd1 Hfd1) as (j1 & Hj1 & -> & Hw1).
  destruct (formatDict_Ok self w1 w2 fd2 Hfd2) as (j2 & Hj2 & -> & Hw2).
  assert (heap w !! self ≠ None) as Hself.
  { intros Hn. rewrite json_eq, Hn in Hj1. done. }
  destruct (heap w !! self) as [o |] eqn:Ho; [clear Hself | done].
  destruct (json_access self w o Ho)
    as (Hf & Ht & Hc & _ & _ & (o' & Ho' & Hattrs & _) & _).
  assert (ticks w1 = S (ticks w)) as Hticks by by rewrite Hw1.
  assert (j2 = j1) as ->.
  { assert ((DotGraph.json self w1).1 = (DotGraph.json self (DotGraph.json self w).2).1)
      as Hsame by (rewrite Hw1; apply json_set_ticks).
    rewrite Hsame, json_again, Hj1 in Hj2. by injection Hj2. }
  rewrite Hticks in Hfd2 |- *. split_and!.
  - by rewrite Hw1.
  - rewrite lookup_insert_eq. by eexists.
  - by rewrite !lookup_insert_eq.
  - rewrite lookup_insert_ne by done. by rewrite lookup_insert_eq.
  - rewrite lookup_insert_ne by done. by rewrite lookup_insert_eq.
  - rewrite !(lookup_insert_ne _ "JSONData") by done. rewrite !lookup_insert_eq.
    unfold unique_id. split.
    + intros Hne Heq. apply Hne. by rewrite Heq.
    + intros Hne [= Heq]. apply Hne. by apply (inj pretty).
  - intros t Htpl. split.
    + by rewrite (html_with_template self w t Htpl), Hfd1.
    + assert ((getattr self "_template" w1).1 = Ok (VStr t)) as Htpl1.
      { rewrite <- Htpl. rewrite Hw1.
        rewrite (getattr_frame self "_template" _ (DotGraph.json self w).2) by done.
        unfold getattr. rewrite Ho', Ho, Hc. rewrite Hattrs by done.
        destruct (o !! "_template"); [done |].
        by destruct (class_attrs w !! "_template"). }
      by rewrite (html_with_template self w1 t Htpl1), Hfd2.
Qed.

Lemma html_twice_same_JSONData_witness :
  let fd1 : gmap string string :=
    <["JSONData" := encode abc_dict]> (<["uniqueID" := "Graph1762214400"]> ∅) in
  let fd2 : gmap string string :=
    <["JSONData" := encode abc_dict]> (<["uniqueID" := "Graph1762214401"]> ∅) in
  fd1 !! "JSONData" = fd2 !! "JSONData" ∧ fd1 !! "uniqueID" ≠ fd2 !! "uniqueID".
Proof.
  intros fd1 fd2.
  pose (w1 := (DotGraph.formatDict (H := ticking_host) 0 abc_world).2).
  pose (w2 := (DotGraph.formatDict (H := ticking_host) 0 w1).2).
  destruct (html_twice_same_JSONData (H := ticking_host) 0 abc_world w1 w2 fd1 fd2)
    as (_ & _ & Hjson & _ & _ & Huid & _).
  - vm_compute. reflexivity.
  - vm_compute. reflexivity.
  - split; [exact Hjson |]. apply Huid. vm_compute. discriminate.
Defined.

(** C4 as stated fails: when the clock does not advance between the two
    calls, both calls derive the same identifier (and return the same text). *)
Lemma html_twice_same_uniqueID :
  outcome_map (λ fd, fd !! "uniqueID") (DotGraph.formatDict (H := coarse_host) 0 abc_world).1
  = Ok (Some "Graph1762214400")
  ∧ outcome_map (λ fd, fd !! "uniqueID")
      (DotGraph.formatDict (H := coarse_host) 0
         (DotGraph.formatDict (H := coarse_host) 0 abc_world).2).1
    = Ok (Some "Graph1762214400")
  ∧ is_ok (DotGraph.html (H := coarse_host) 0 abc_world).1 = true
  ∧ (DotGraph.html (H := coarse_host) 0 (DotGraph.html (H := coarse_host) 0 abc_world).2).1
    = (DotGraph.html (H := coarse_host) 0 abc_world).1.
Proof. split_and!; vm_compute; reflexivity. Qed.

(** ** The command line *)

Lemma html_missing_file `{Host} (self : nat) (w : world) (o : gmap string value) (path : string) :
  heap w !! self = Some o → o !! "infile" = Some (VStr path) →
  read_file (fs w) path = None →
  (DotGraph.html self w).1 = Raise (IOError path)
  ∧ fs (DotGraph.html self w).2 = fs w
  ∧ stdout (DotGraph.html self w).2 = stdout w.
Proof.
  intros Ho Hin Hfs.
  destruct (json_access self w o Ho)
    as (Hf & _ & _ & Hs & _ & _ & (jenc & _ & Hr & _)).
  assert ((getattr self "infile" w).1 = Ok (VStr path)) as Hg
    by by apply (getattr_own self "infile" w o).
  rewrite dict_eq in Hr, Hs. unfold printed in Hs. simpl in Hr, Hs.
  rewrite Hg in Hr, Hs. simpl in Hr, Hs.
  unfold dict_of_infile, graph_of_infile in Hr. rewrite Hfs in Hr, Hs.
  rewrite app_nil_r_s in Hs. rewrite html_world.
  split; [| by split].
  rewrite html_eq, formatDict_eq. simpl.
  destruct (json_set_ticks self (S (ticks w)) w) as [-> _]. by rewrite Hr.
Qed.

(** The script up to the evaluation of [dg.html], with an output path. *)
Lemma main_output_eq `{Host} (prog infile outfile : string) (rest : list string) (w : world) :
  main (prog :: infile :: outfile :: rest) w
  = let w1 := set_heap (<[fresh (dom (heap w)) := <["infile" := VStr infile]> ∅]> (heap w)) w in
    if writable outfile then
      bind (DotGraph.html (fresh (dom (heap w)))) (file_write (target (fs w) outfile))
        (set_fs (<[target (fs w) outfile := ""]> (fs w)) w1)
    else (Raise (IOError outfile), w1).
Proof.
  destruct (new_eq infile None w) as [_ Hnew].
  unfold main.
  change (argv_get (prog :: infile :: outfile :: rest) 1) with (ret (A := string) infile).
  change (argv_get (prog :: infile :: outfile :: rest) 2) with (ret (A := string) outfile).
  change (2 <? List.length (prog :: infile :: outfile :: rest))%nat with true.
  unfold bind at 1. unfold ret at 1. unfold bind at 1. rewrite Hnew.
  cbn beta iota. unfold bind at 1. unfold ret at 1. unfold bind at 1.
  unfold open_w. cbn [fs set_heap]. by destruct (writable outfile).
Qed.

Lemma main_to_stdout_eq `{Host} (prog infile : string) (w : world) :
  main [prog; infile] w
  = bind (DotGraph.html (fresh (dom (heap w)))) stdout_write
      (set_heap (<[fresh (dom (heap w)) := <["infile" := VStr infile]> ∅]> (heap w)) w).
Proof.
  destruct (new_eq infile None w) as [_ Hnew].
  unfold main.
  change (argv_get [prog; infile] 1) with (ret (A := string) infile).
  change (2 <? List.length [prog; infile])%nat with false.
  unfold bind at 1. unfold ret at 1. unfold bind at 1. rewrite Hnew.
  reflexivity.
Qed.

(** With an output path, the script has opened (and so emptied or created)
    the output file before it evaluates [dg.html]. *)
Lemma main_missing_input_with_output `{Host}
    (prog infile outfile : string) (files : gmap string string) :
  read_file files infile = None → infile ≠ outfile → same_file infile outfile = false →
  writable outfile = true →
  let r := main [prog; infile; outfile] (initial_world files) in
  r.1 = Raise (IOError infile) ∧ exit_status r.1 = Some 1%Z
  ∧ fs r.2 !! target files outfile = Some "".
Proof.
  intros Hmiss Hne Hsame Hw r. subst r. rewrite main_output_eq.
  cbn zeta. rewrite Hw.
  match goal with |- context [bind (DotGraph.html ?self) _ ?w] =>
    destruct (html_missing_file self w (<["infile" := VStr infile]> ∅) infile)
      as (Hr & Hf & _);
      [simpl; apply lookup_insert_eq | apply lookup_insert_eq
      | simpl; by apply read_file_None_open |];
    unfold bind; destruct (DotGraph.html self w) as [o w']
  end.
  simpl in Hr, Hf. subst o. simpl. split_and!; [done | done |].
  rewrite Hf. apply lookup_insert_eq.
Qed.

(** Without an output path nothing is written at all. *)
Lemma main_missing_input_to_stdout `{Host}
    (prog infile : string) (files : gmap string string) :
  read_file files infile = None →
  let r := main [prog; infile] (initial_world files) in
  r.1 = Raise (IOError infile) ∧ exit_status r.1 = Some 1%Z
  ∧ fs r.2 = files ∧ stdout r.2 = "".
Proof.
  intros Hmiss r. subst r. rewrite main_to_stdout_eq.
  match goal with |- context [bind (DotGraph.html ?self) _ ?w] =>
    destruct (html_missing_file self w (<["infile" := VStr infile]> ∅) infile)
      as (Hr & Hf & Hs);
      [simpl; apply lookup_insert_eq | apply lookup_insert_eq | done |];
    unfold bind; destruct (DotGraph.html self w) as [o w']
  end.
  simpl in Hr, Hf, Hs. subst o. simpl. by split_and!.
Qed.

(** C1 fails on the code: with a missing input file the process does exit
    with status 1, but an existing output file has lost its contents and a
    missing one has been created, both empty. *)
Theorem main_missing_input_truncates_output :
  exit_status
    (main (H := ticking_host) ["dotgraph.py"; "missing.dot"; "out.html"]
       (initial_world {[ "out.html" := "<p>kept</p>" ]})).1 = Some 1%Z
  ∧ fs (main (H := ticking_host) ["dotgraph.py"; "missing.dot"; "out.html"]
          (initial_world {[ "out.html" := "<p>kept</p>" ]})).2 !! "out.html" = Some ""
  ∧ fs (main (H := ticking_host) ["dotgraph.py"; "missing.dot"; "out.html"]
          (initial_world ∅)).2 !! "out.html" = Some "".
Proof. split_and!; vm_compute; reflexivity. Qed.

(** * Further properties *)

(** ** Further properties of the views *)

Section more_views.
Context `{Host}.

(** The encoder that [json] uses, when [_jenc] does not hold a string. *)
Lemma json_with_encoder (self : nat) (w : world) (o : gmap string value) :
  heap w !! self = Some o →
  (∀ s, (getattr self "_jenc" w).1 ≠ Ok (VStr s)) →
  (DotGraph.json self w).1 = outcome_map encode (DotGraph.dict self w).1.
Proof.
  intros Ho Hjenc.
  destruct (json_access self w o Ho) as (_ & _ & _ & _ & _ & _ & (jenc & Hj & -> & _)).
  assert ((DotGraph.json self w).2 = print (printed self w) (with_encoder self w)) as Hw
    by (by rewrite json_eq, Ho).
  rewrite Hw in Hj.
  rewrite (getattr_frame self "_jenc" (print (printed self w) (with_encoder self w))
             (with_encoder self w)) in Hj by done.
  rewrite (getattr_jenc_with_encoder self w o Ho) in Hj.
  destruct jenc as [s | e]; [| done].
  destruct (getattr self "_jenc" w).1 as [v | |] eqn:Hg; [| done | done].
  injection Hj as ->. by destruct (Hjenc s).
Qed.

Lemma html_of_json_error (self : nat) (w : world) (e : exn) :
  (DotGraph.json self w).1 = Raise e → (DotGraph.html self w).1 = Raise e.
Proof.
  intros He. rewrite html_eq, formatDict_eq. simpl.
  destruct (json_set_ticks self (S (ticks w)) w) as [-> _]. by rewrite He.
Qed.

(** [html] returns only when [json], and so [dict] and [graph], return. *)
Lemma html_Ok_graph (self : nat) (w : world) :
  is_ok (DotGraph.html self w).1 = true → is_ok (DotGraph.graph self w).1 = true.
Proof.
  rewrite html_eq, formatDict_eq. simpl.
  destruct (json_set_ticks self (S (ticks w)) w) as [-> _].
  rewrite json_eq. destruct (heap w !! self) as [o |]; [| done]. simpl.
  destruct (getattr self "_jenc" (with_encoder self w)).1 as [jenc | |]; [| done | done].
  simpl. unfold encode_with. rewrite dict_of_graph.
  by destruct (DotGraph.graph self w).1.
Qed.

Lemma with_encoder_set_fs (self : nat) (files : gmap string string) (w : world) :
  with_encoder self (set_fs files w) = set_fs files (with_encoder self w).
Proof.
  unfold with_encoder. simpl heap. destruct (heap w !! self) as [o |]; [| done].
  rewrite (getattr_frame self "_jenc" (set_fs files w) w) by done.
  by destruct (is_ok _).
Qed.

Lemma with_encoder_print (self : nat) (s : string) (w : world) :
  with_encoder self (print s w) = print s (with_encoder self w).
Proof.
  unfold with_encoder. simpl heap. destruct (heap w !! self) as [o |]; [| done].
  rewrite (getattr_frame self "_jenc" (print s w) w) by done.
  by destruct (is_ok _).
Qed.

Lemma with_encoder_idem (self : nat) (w : world) :
  with_encoder self (with_encoder self w) = with_encoder self w.
Proof.
  destruct (heap w !! self) as [o |] eqn:Ho.
  - unfold with_encoder at 1.
    destruct (heap (with_encoder self w) !! self) as [o' |] eqn:Ho'; [| done].
    rewrite (getattr_jenc_with_encoder self w o Ho).
    by destruct (getattr self "_jenc" w).1.
  - assert (with_encoder self w = w) as Hw by (unfold with_encoder; by rewrite Ho).
    by rewrite !Hw.
Qed.

Lemma with_encoder_heap (self : nat) (w : world) (o : gmap string value) :
  heap w !! self = Some o → is_Some (heap (with_encoder self w) !! self).
Proof.
  intros Ho. unfold with_encoder. rewrite Ho. destruct (is_ok _); simpl.
  - by rewrite Ho.
  - by rewrite lookup_insert_eq.
Qed.

(** What [graph] and [dict] do to the world and what their results depend on. *)
Lemma graph_dict_access (self : nat) (w1 w2 : world) :
  (DotGraph.dict self w1).2 = (DotGraph.graph self w1).2
  ∧ (∃ diagnostic, (DotGraph.graph self w1).2 = set_stdout (stdout w1 +:+ diagnostic) w1)
  ∧ (is_ok (DotGraph.graph self w1).1 = true → (DotGraph.graph self w1).2 = w1)
  ∧ (heap w1 !! self = heap w2 !! self → class_attrs w1 = class_attrs w2 →
     fs w1 = fs w2 →
     (DotGraph.graph self w1).1 = (DotGraph.graph self w2).1
     ∧ (DotGraph.dict self w1).1 = (DotGraph.dict self w2).1).
Proof.
  split; [by rewrite graph_eq, dict_eq |]. split; [| split].
  - exists (printed self w1). by rewrite graph_eq.
  - intros Hok. rewrite (graph_eq self w1). simpl.
    rewrite (printed_Ok self w1 Hok). apply print_nil.
  - intros Hh Hc Hf. split; [| by apply dict_frame].
    rewrite !graph_eq. simpl. by rewrite (getattr_frame self "infile" w1 w2), Hf.
Qed.

(** What [html] and [render] do to the world. *)
Lemma html_access (self : nat) (w : world) (o : gmap string value) :
  heap w !! self = Some o →
  let w' := (DotGraph.html self w).2 in
  (DotGraph.render self w).2 = w'
  ∧ ticks w' = S (ticks w)
  ∧ fs w' = fs w ∧ class_attrs w' = class_attrs w
  ∧ stdout w' = stdout (DotGraph.dict self w).2
  ∧ (is_ok (DotGraph.html self w).1 = true → stdout w' = stdout w)
  ∧ (∀ other, other ≠ self → heap w' !! other = heap w !! other)
  ∧ ∃ o', heap w' !! self = Some o' ∧ ∀ a, a ≠ "_jenc" → o' !! a = o !! a.
Proof.
  intros Ho w'. subst w'. rewrite render_eq, html_world.
  destruct (json_access self w o Ho) as (Hf & _ & Hc & Hs & Hother & (o' & Ho' & Ha & _) & _).
  split_and!; try done; [| by exists o'].
  intros Hok%html_Ok_graph. simpl. rewrite Hs, dict_eq. simpl.
  by rewrite (printed_Ok self w Hok), app_nil_r_s.
Qed.

(** A later access to [json], once the files have changed. *)
Lemma json_after_json (self : nat) (w : world) (o : gmap string value)
    (files : gmap string string) :
  heap w !! self = Some o →
  let w1 := (DotGraph.json self w).2 in
  (DotGraph.json self (set_fs files w1)).1 = (DotGraph.json self (set_fs files w)).1
  ∧ heap (DotGraph.json self (set_fs files w1)).2 = heap w1.
Proof.
  intros Ho w1. subst w1.
  assert ((DotGraph.json self w).2 = print (printed self w) (with_encoder self w)) as ->
    by (by rewrite json_eq, Ho).
  destruct (with_encoder_heap self w o Ho) as [o' Ho'].
  rewrite (json_eq self (set_fs files (print (printed self w) (with_encoder self w)))).
  rewrite (json_eq self (set_fs files w)). simpl heap. rewrite Ho, Ho'. simpl.
  assert (set_fs files (print (printed self w) (with_encoder self w))
          = print (printed self w) (with_encoder self (set_fs files w))) as ->
    by (by rewrite with_encoder_set_fs).
  rewrite !with_encoder_print, with_encoder_idem. simpl. split; [| by rewrite with_encoder_set_fs].
  rewrite (getattr_frame self "_jenc"
             (print (printed self w) (with_encoder self (set_fs files w)))
             (with_encoder self (set_fs files w))) by done.
  destruct (getattr self "_jenc" (with_encoder self (set_fs files w))).1
    as [jenc | |]; [| done | done].
  simpl. f_equal.
  rewrite (dict_frame self (print (printed self w) (with_encoder self (set_fs files w)))
             (with_encoder self (set_fs files w))) by done.
  apply dict_with_encoder.
Qed.
End more_views.

(** X1: failures pass through the views unchanged.  What [graph] raises,
    [dict] raises; what [dict] raises, [json], [html] and [render] raise
    (on an instance whose [_jenc] does not hold a string). *)
Theorem view_errors_propagate `{Host}
    (self : nat) (w : world) (o : gmap string value) (e : exn) :
  heap w !! self = Some o →
  (∀ s, (getattr self "_jenc" w).1 ≠ Ok (VStr s)) →
  ((DotGraph.graph self w).1 = Raise e → (DotGraph.dict self w).1 = Raise e)
  ∧ ((DotGraph.dict self w).1 = Raise e →
     (DotGraph.json self w).1 = Raise e
     ∧ (DotGraph.html self w).1 = Raise e
     ∧ (DotGraph.render self w).1 = Raise e).
Proof.
  intros Ho Hjenc. split.
  - intros Hg. by rewrite dict_of_graph, Hg.
  - intros Hd.
    assert ((DotGraph.json self w).1 = Raise e) as Hj
      by (by rewrite (json_with_encoder self w o Ho Hjenc), Hd).
    split; [done |]. split; [by apply html_of_json_error |].
    rewrite render_eq. simpl. by rewrite (html_of_json_error self w e Hj).
Qed.

Lemma view_errors_propagate_witness :
  (DotGraph.html (H := ticking_host) 0
     (DotGraph.new "abc.dot" None (initial_world {[ "abc.dot" := "digraph {" ]})).2).1
  = Raise (ParseError "syntax error").
Proof.
  destruct (view_errors_propagate (H := ticking_host) 0
              (DotGraph.new "abc.dot" None (initial_world {[ "abc.dot" := "digraph {" ]})).2
              (<["infile" := VStr "abc.dot"]> ∅) (ParseError "syntax error"))
    as [Hg Hd].
  - vm_compute. reflexivity.
  - intros s. vm_compute. discriminate.
  - apply Hd, Hg. vm_compute. reflexivity.
Defined.

(** X2: [graph] and [dict] write no file and change no instance, no class
    attribute and no clock reading: they leave the world as it was but for
    what the parser prints on standard output, and exactly as it was when
    they return a value.  What they return is read from the files at each
    access: it depends on the instance, the class attributes and the files
    only, not on the clock, on what was printed or on other instances. *)
Theorem graph_dict_read_only `{Host} (self : nat) (w1 w2 : world) :
  (DotGraph.dict self w1).2 = (DotGraph.graph self w1).2
  ∧ (∃ diagnostic, (DotGraph.graph self w1).2 = set_stdout (stdout w1 +:+ diagnostic) w1)
  ∧ (is_ok (DotGraph.graph self w1).1 = true → (DotGraph.graph self w1).2 = w1)
  ∧ (heap w1 !! self = heap w2 !! self → class_attrs w1 = class_attrs w2 →
     fs w1 = fs w2 →
     (DotGraph.graph self w1).1 = (DotGraph.graph self w2).1
     ∧ (DotGraph.dict self w1).1 = (DotGraph.dict self w2).1).
Proof. apply graph_dict_access. Qed.

(** X3: an access to [html] (and so a call of [render]) reads the clock
    once, also when it fails, and changes nothing else but the attribute
    [_jenc] of the instance and what is printed: no file, no class
    attribute, no other instance.  It prints what [dict] prints in the same
    world (the parser's diagnostic for a text it rejects), and so nothing
    when it returns. *)
Theorem html_changes_clock_and_encoder_only `{Host}
    (self : nat) (w : world) (o : gmap string value) :
  heap w !! self = Some o →
  let w' := (DotGraph.html self w).2 in
  (DotGraph.render self w).2 = w'
  ∧ ticks w' = S (ticks w)
  ∧ fs w' = fs w ∧ class_attrs w' = class_attrs w
  ∧ stdout w' = stdout (DotGraph.dict self w).2
  ∧ (is_ok (DotGraph.html self w).1 = true → stdout w' = stdout w)
  ∧ (∀ other, other ≠ self → heap w' !! other = heap w !! other)
  ∧ ∃ o', heap w' !! self = Some o' ∧ ∀ a, a ≠ "_jenc" → o' !! a = o !! a.
Proof. apply html_access. Qed.

Lemma html_changes_clock_and_encoder_only_witness :
  ticks (DotGraph.html (H := ticking_host) 0 abc_world).2 = 1%nat
  ∧ fs (DotGraph.html (H := ticking_host) 0 abc_world).2 = abc_files
  ∧ stdout (DotGraph.html (H := ticking_host) 0 abc_world).2 = "".
Proof.
  destruct (html_changes_clock_and_encoder_only (H := ticking_host) 0 abc_world
              (<["infile" := VStr "abc.dot"]> ∅))
    as (_ & Ht & Hf & _ & _ & Hs & _).
  - vm_compute. reflexivity.
  - split_and!; [exact Ht | exact Hf |]. apply Hs. vm_compute. reflexivity.
Defined.

(** X4: an access to [json] leaves no trace in later results.  A later
    access, whatever the files have become, returns what a first access
    would return on those files, and changes no attribute any more. *)
Theorem json_later_access `{Host}
    (self : nat) (w : world) (o : gmap string value) (files : gmap string string) :
  heap w !! self = Some o →
  let w1 := (DotGraph.json self w).2 in
  (DotGraph.json self (set_fs files w1)).1 = (DotGraph.json self (set_fs files w)).1
  ∧ heap (DotGraph.json self (set_fs files w1)).2 = heap w1.
Proof. apply json_after_json. Qed.

Lemma json_later_access_witness :
  (DotGraph.json (H := ticking_host) 0
     (set_fs ∅ (DotGraph.json (H := ticking_host) 0 abc_world).2)).1
  = Raise (IOError "abc.dot").
Proof.
  destruct (json_later_access (H := ticking_host) 0 abc_world
              (<["infile" := VStr "abc.dot"]> ∅) ∅) as [Hr _].
  - vm_compute. reflexivity.
  - rewrite Hr. vm_compute. reflexivity.
Defined.

(** ** Further properties of the HTML view *)

Lemma no_char_cons (x c : ascii) (s : string) :
  substring_of (String x "") (String c s) = false →
  Ascii.eqb c x = false ∧ substring_of (String x "") s = false.
Proof.
  assert (substring_of (String x "") (String c s)
          = match (if Ascii.eqb x c then Some s else None) with
            | Some _ => true
            | None => substring_of (String x "") s
            end) as -> by reflexivity.
  rewrite (Ascii.eqb_sym x c). by destruct (Ascii.eqb c x).
Qed.

(** Reading a key up to its closing parenthesis. *)
Lemma format_key (key acc rest : string) (d : gmap string string) :
  plain_key key →
  format_from (InKey 1 acc) (key +:+ String ")" rest) d
  = match d !! (acc +:+ key) with
    | Some v => format_from (AfterKey v) rest d
    | None => Raise (KeyError (acc +:+ key))
    end.
Proof.
  revert acc. induction key as [|c key IH]; intros acc [Hopen Hclose].
  - sapp. rewrite app_nil_r_s. reflexivity.
  - apply no_char_cons in Hopen as [Hc1 Hopen].
    apply no_char_cons in Hclose as [Hc2 Hclose].
    sapp. simpl. rewrite Hc1, Hc2. rewrite IH by done.
    by rewrite app_assoc_s.
Qed.

Section more_html.
Context `{Host}.

(** [html] on any template, from what [json] returns. *)
Lemma html_format (self : nat) (w : world) (t : string) :
  (getattr self "_template" w).1 = Ok (VStr t) →
  (DotGraph.html self w).1
  = outcome_bind (DotGraph.json self w).1 (λ j,
      pyformat t (<["JSONData" := j]> (<["uniqueID" := unique_id (clock (ticks w))]> ∅))).
Proof.
  intros Ht. rewrite (html_with_template self w t Ht), formatDict_eq. simpl.
  destruct (json_set_ticks self (S (ticks w)) w) as [-> _].
  by destruct (DotGraph.json self w).1.
Qed.
End more_html.

(** X5: with the default template in force, [html] fails only as [json]
    fails, and otherwise returns the fixed text of the template around the
    identifier and the JSON text: the identifier stands in the [id] of the
    [div] and, the same one, in the two [d3.select] calls of the script. *)
Theorem html_default_template_form `{Host} (self : nat) (w : world) :
  (getattr self "_template" w).1 = Ok (VStr DotGraph._template) →
  (DotGraph.html self w).1
  = outcome_map (λ j,
      let uid := unique_id (clock (ticks w)) in
      template_piece 0 +:+ uid +:+ template_piece 2 +:+ j +:+ template_piece 4
      +:+ uid +:+ template_piece 6 +:+ uid +:+ template_piece 8)
      (DotGraph.json self w).1
  ∧ ends_with ("<div id=" +:+ dq) (template_piece 0) = true
  ∧ starts_with (dq +:+ "></div>") (template_piece 2) = true
  ∧ ends_with "var graph = " (template_piece 2) = true
  ∧ ends_with ("d3.select(" +:+ dq +:+ "#") (template_piece 4) = true
  ∧ starts_with (dq +:+ ").select(" +:+ dq +:+ "svg" +:+ dq +:+ ")") (template_piece 6) = true
  ∧ ends_with ("d3.select(" +:+ dq +:+ "#") (template_piece 6) = true
  ∧ starts_with (dq +:+ ").append(" +:+ dq +:+ "svg" +:+ dq +:+ ")") (template_piece 8) = true.
Proof.
  intros Ht. split; [| split_and!; vm_compute; reflexivity].
  destruct default_template_segments as (Htext & Hsegs & _).
  rewrite <- Htext in Ht. rewrite (html_segments self w _ Hsegs Ht).
  assert (segments_of DotGraph._template
          = [Lit (template_piece 0); UniqueID; Lit (template_piece 2); JSONData;
             Lit (template_piece 4); UniqueID; Lit (template_piece 6); UniqueID;
             Lit (template_piece 8)]) as -> by (vm_compute; reflexivity).
  remember (unique_id (clock (ticks w))) as uid.
  remember (template_piece 0) as p0. remember (template_piece 2) as p2.
  remember (template_piece 4) as p4. remember (template_piece 6) as p6.
  remember (template_piece 8) as p8.
  destruct (DotGraph.json self w).1 as [j | e |]; [| done | done].
  change (Ok (fill uid j [Lit p0; UniqueID; Lit p2; JSONData; Lit p4; UniqueID; Lit p6;
                          UniqueID; Lit p8])
          = Ok (p0 +:+ uid +:+ p2 +:+ j +:+ p4 +:+ uid +:+ p6 +:+ uid +:+ p8)).
  change (fill uid j [Lit p0; UniqueID; Lit p2; JSONData; Lit p4; UniqueID; Lit p6;
                      UniqueID; Lit p8])
    with (p0 +:+ uid +:+ p2 +:+ j +:+ p4 +:+ uid +:+ p6 +:+ uid +:+ p8 +:+ "").
  by rewrite app_nil_r_s.
Qed.

Lemma html_default_template_form_witness :
  (DotGraph.html (H := ticking_host) 0 abc_world).1
  = Ok (template_piece 0 +:+ "Graph1762214400" +:+ template_piece 2 +:+ encode abc_dict
        +:+ template_piece 4 +:+ "Graph1762214400" +:+ template_piece 6
        +:+ "Graph1762214400" +:+ template_piece 8).
Proof.
  destruct (html_default_template_form (H := ticking_host) 0 abc_world) as [Hh _].
  - vm_compute. reflexivity.
  - rewrite Hh. vm_compute. reflexivity.
Defined.

(** X6: a template without any percent sign is returned as it is, once
    [json] has returned; [json] is evaluated all the same and its failure is
    the failure of [html]. *)
Theorem html_template_without_percent `{Host} (self : nat) (w : world) (t : string) :
  (getattr self "_template" w).1 = Ok (VStr t) →
  substring_of "%" t = false →
  (DotGraph.html self w).1 = outcome_map (λ _, t) (DotGraph.json self w).1.
Proof.
  intros Ht Hno.
  assert (template_of [Lit t] = t) as Htext by apply app_nil_r_s.
  rewrite <- Htext in Ht.
  rewrite (html_segments self w [Lit t]); [| by repeat constructor | done].
  destruct (DotGraph.json self w).1; [| done | done].
  simpl. f_equal. apply app_nil_r_s.
Qed.

Lemma html_template_without_percent_witness :
  (DotGraph.html (H := ticking_host) 0 static_world).1
  = outcome_map (λ _, static_template) (DotGraph.json (H := ticking_host) 0 static_world).1.
Proof.
  apply (html_template_without_percent (H := ticking_host) 0 static_world static_template).
  - vm_compute. reflexivity.
  - vm_compute. reflexivity.
Defined.

(** X7: the dictionary that [html] formats with has the keys [uniqueID] and
    [JSONData] and no other: a template whose first directive names another
    key makes [html] raise [KeyError] for that key, whenever [json] returns
    and whatever follows in the template. *)
Theorem html_unknown_key `{Host}
    (self : nat) (w : world) (before key rest : string) :
  (getattr self "_template" w).1
  = Ok (VStr (before +:+ "%(" +:+ key +:+ ")" +:+ rest)) →
  substring_of "%" before = false → plain_key key →
  key ≠ "uniqueID" → key ≠ "JSONData" →
  (DotGraph.html self w).1
  = outcome_bind (DotGraph.json self w).1 (λ _, Raise (KeyError key)).
Proof.
  intros Ht Hbefore Hkey Hu Hj. rewrite (html_format self w _ Ht).
  destruct (DotGraph.json self w).1 as [j | e |]; [| done | done]. simpl.
  unfold pyformat. rewrite format_literal by done. sapp.
  change (format_from Text (String "%" (String "(" ?s)) ?d)
    with (format_from (InKey 1 "") s d).
  rewrite format_key by done. sapp.
  rewrite !lookup_insert_ne by done. by rewrite lookup_empty.
Qed.

Lemma html_unknown_key_witness :
  (DotGraph.html (H := ticking_host) 0
     (DotGraph.new "abc.dot" (Some "<h1>%(title)s</h1>%(JSONData)s")
        (initial_world abc_files)).2).1
  = Raise (KeyError "title").
Proof.
  rewrite (html_unknown_key (H := ticking_host) 0 _ "<h1>" "title" "s</h1>%(JSONData)s").
  - vm_compute. reflexivity.
  - vm_compute. reflexivity.
  - vm_compute. reflexivity.
  - split; vm_compute; reflexivity.
  - discriminate.
  - discriminate.
Defined.

(** X8: a template that ends in a lone percent sign makes [html] raise
    [ValueError] (incomplete format), whenever [json] returns. *)
Theorem html_trailing_percent `{Host} (self : nat) (w : world) (before : string) :
  (getattr self "_template" w).1 = Ok (VStr (before +:+ "%")) →
  substring_of "%" before = false →
  (DotGraph.html self w).1
  = outcome_bind (DotGraph.json self w).1
      (λ _, Raise (ValueError "incomplete format")).
Proof.
  intros Ht Hbefore. rewrite (html_format self w _ Ht).
  destruct (DotGraph.json self w).1 as [j | e |]; [| done | done]. simpl.
  unfold pyformat. by rewrite format_literal by done.
Qed.

Lemma html_trailing_percent_witness :
  (DotGraph.html (H := ticking_host) 0
     (DotGraph.new "abc.dot" (Some "width: 100%") (initial_world abc_files)).2).1
  = Raise (ValueError "incomplete format").
Proof.
  rewrite (html_trailing_percent (H := ticking_host) 0 _ "width: 100").
  - vm_compute. reflexivity.
  - vm_compute. reflexivity.
  - vm_compute. reflexivity.
Defined.

(** ** Further properties of the command line *)

Section more_main.
Context `{Host}.

Lemma printed_of_infile_Ok (files : gmap string string) (infile : value) :
  is_ok (dict_of_infile files infile) = true → printed_of_infile files (Ok infile) = "".
Proof.
  unfold dict_of_infile, graph_of_infile, printed_of_infile.
  destruct infile as [path | e]; [| done].
  destruct (read_file files path) as [text |]; [| done].
  by destruct (parse_dot text).
Qed.

(** [html] on the instance that the script has just constructed. *)
Lemma html_new_instance (self : nat) (w : world) (infile : string) :
  heap w !! self = Some (<["infile" := VStr infile]> ∅) →
  class_attrs w = DotGraph.class_dict →
  (DotGraph.html self w).1
  = outcome_map (λ d, fill (unique_id (clock (ticks w))) (encode d)
                        (segments_of DotGraph._template))
      (dict_of_infile (fs w) (VStr infile))
  ∧ fs (DotGraph.html self w).2 = fs w
  ∧ stdout (DotGraph.html self w).2
    = stdout w +:+ printed_of_infile (fs w) (Ok (VStr infile)).
Proof.
  intros Ho Hc.
  assert ((getattr self "infile" w).1 = Ok (VStr infile)) as Hin
    by (apply (getattr_own self "infile" w _ (VStr infile) Ho); apply lookup_insert_eq).
  destruct (json_access self w _ Ho) as (Hf & _ & _ & Hs & _).
  split; [| split; [by rewrite html_world |]].
  2: { rewrite html_world. cbn [stdout set_ticks]. rewrite Hs, dict_eq.
       unfold printed. by rewrite Hin. }
  destruct default_template_segments as (Htext & Hsegs & _).
  assert ((getattr self "_template" w).1
          = Ok (VStr (template_of (segments_of DotGraph._template)))) as Ht.
  { rewrite Htext. rewrite (getattr_class self "_template" w _ Ho)
      by by rewrite lookup_insert_ne.
    by rewrite Hc. }
  rewrite (html_segments self w (segments_of DotGraph._template) Hsegs Ht).
  clear Ht Htext Hsegs.
  remember (segments_of DotGraph._template) as segs eqn:Esegs. clear Esegs.
  assert ((DotGraph.json self w).1
          = outcome_map encode (dict_of_infile (fs w) (VStr infile))) as ->.
  { rewrite (json_with_encoder self w _ Ho).
    - rewrite dict_eq.
      change ((outcome_bind (getattr self "infile" w).1 (dict_of_infile (fs w)),
               print (printed self w) w).1)
        with (outcome_bind (getattr self "infile" w).1 (dict_of_infile (fs w))).
      by rewrite Hin.
    - intros s. rewrite (getattr_class self "_jenc" w _ Ho) by by rewrite lookup_insert_ne.
      by rewrite Hc. }
  by destruct (dict_of_infile (fs w) (VStr infile)).
Qed.

(** The run with an output path that can be opened, in full: the graph is
    read from the files as they are once the output file has been opened. *)
Lemma main_output_spec (prog infile outfile : string) (rest : list string)
    (files : gmap string string) :
  writable outfile = true →
  let r := main (prog :: infile :: outfile :: rest) (initial_world files) in
  let files1 := <[target files outfile := ""]> files in
  let d := dict_of_infile files1 (VStr infile) in
  r.1 = outcome_map (λ _, ()) d
  ∧ fs r.2
    = <[target files outfile :=
          match d with
          | Ok d => fill (unique_id (clock 0)) (encode d) (segments_of DotGraph._template)
          | _ => ""
          end]> files
  ∧ stdout r.2 = printed_of_infile files1 (Ok (VStr infile)).
Proof.
  intros Hw r files1 d. subst r. rewrite main_output_eq. cbn zeta. rewrite Hw.
  remember (segments_of DotGraph._template) as segs eqn:Esegs.
  match goal with |- context [bind (DotGraph.html ?self) _ ?w] =>
    destruct (html_new_instance self w infile) as (Hr & Hf & Hs);
      [cbn [heap set_fs set_heap]; apply lookup_insert_eq | reflexivity |];
    unfold bind; destruct (DotGraph.html self w) as [o w']
  end.
  rewrite <- Esegs in Hr. clear Esegs.
  cbn [fst snd fs stdout ticks set_fs set_heap initial_world] in Hr, Hf, Hs.
  fold files1 in Hr, Hf, Hs. fold d in Hr. subst o.
  rewrite app_nil_l_s in Hs.
  destruct d as [v | e |]; cbn [outcome_map outcome_bind fst snd].
  - unfold file_write. cbn [fst snd fs stdout set_fs].
    rewrite Hf, Hs. subst files1. rewrite lookup_insert_eq. cbn [default from_option].
    sapp. by rewrite insert_insert_eq.
  - by rewrite Hf, Hs.
  - by rewrite Hf, Hs.
Qed.

(** The run with an output path that cannot be opened. *)
Lemma main_output_failure (prog infile outfile : string) (rest : list string)
    (files : gmap string string) :
  writable outfile = false →
  let r := main (prog :: infile :: outfile :: rest) (initial_world files) in
  r.1 = Raise (IOError outfile) ∧ exit_status r.1 = Some 1%Z
  ∧ fs r.2 = files ∧ stdout r.2 = "" ∧ ticks r.2 = 0%nat.
Proof.
  intros Hw r. subst r. rewrite main_output_eq. cbn zeta. by rewrite Hw.
Qed.

Lemma main_stdout_spec (prog infile : string) (files : gmap string string) :
  let r := main [prog; infile] (initial_world files) in
  let d := dict_of_infile files (VStr infile) in
  r.1 = outcome_map (λ _, ()) d
  ∧ fs r.2 = files
  ∧ stdout r.2 = match d with
                 | Ok d => fill (unique_id (clock 0)) (encode d)
                             (segments_of DotGraph._template)
                 | _ => printed_of_infile files (Ok (VStr infile))
                 end.
Proof.
  intros r d. subst r. rewrite main_to_stdout_eq.
  remember (segments_of DotGraph._template) as segs eqn:Esegs.
  match goal with |- context [bind (DotGraph.html ?self) _ ?w] =>
    destruct (html_new_instance self w infile) as (Hr & Hf & Hs);
      [cbn [heap set_fs set_heap]; apply lookup_insert_eq | reflexivity |];
    unfold bind; destruct (DotGraph.html self w) as [o w']
  end.
  rewrite <- Esegs in Hr. clear Esegs.
  cbn [fst snd fs stdout ticks set_fs set_heap initial_world] in Hr, Hf, Hs.
  fold d in Hr. subst o. rewrite app_nil_l_s in Hs.
  pose proof (printed_of_infile_Ok files (VStr infile)) as Hok. fold d in Hok.
  destruct d as [v | e |]; cbn [outcome_map outcome_bind fst snd].
  - unfold stdout_write. cbn [fst snd fs stdout set_stdout].
    rewrite Hf, Hs, Hok by done. by sapp.
  - by rewrite Hf, Hs.
  - by rewrite Hf, Hs.
Qed.
End more_main.

(** X9: with an output path that can be opened for writing and that is
    another path of another file than the input, and on a well-formed input,
    the script runs to its end (status 0), prints nothing, and the file that
    the output path names holds exactly the HTML text of the default
    template for the graph of the input file and the first clock reading;
    every other file is as before and arguments after the output path are
    ignored. *)
Theorem main_writes_html_to_file `{Host}
    (prog infile outfile text : string) (rest : list string)
    (files : gmap string string) (g : nxgraph) (d : jvalue) :
  writable outfile = true → outfile ≠ infile → same_file outfile infile = false →
  files !! infile = Some text →
  parse_dot text = Ok g → node_link_data g = Ok d →
  let r := main (prog :: infile :: outfile :: rest) (initial_world files) in
  r.1 = Ok () ∧ exit_status r.1 = Some 0%Z
  ∧ fs r.2 = <[target files outfile := fill (unique_id (clock 0)) (encode d)
                                          (segments_of DotGraph._template)]> files
  ∧ stdout r.2 = "".
Proof.
  intros Hw Hne Hsame Hfile Hparse Hd r. subst r.
  destruct (main_output_spec prog infile outfile rest files Hw) as (Hr & Hf & Hs).
  assert (read_file (<[target files outfile := ""]> files) infile = Some text) as Hread.
  { apply read_file_direct. by rewrite lookup_insert_ne by by apply target_other. }
  assert (dict_of_infile (<[target files outfile := ""]> files) (VStr infile) = Ok d)
    as Hdict.
  { unfold dict_of_infile, graph_of_infile. by rewrite Hread, Hparse. }
  rewrite Hdict in Hr, Hf. rewrite Hr. split_and!; [done | done | done |].
  rewrite Hs. apply printed_of_infile_Ok. by rewrite Hdict.
Qed.

Lemma main_writes_html_to_file_witness :
  fs (main (H := ticking_host) ["dotgraph.py"; "abc.dot"; "out.html"]
        (initial_world abc_files)).2 !! "out.html"
  = Some abc_html.
Proof.
  destruct (main_writes_html_to_file (H := ticking_host) "dotgraph.py" "abc.dot" "out.html"
              abc_text [] abc_files abc_graph abc_dict)
    as (_ & _ & Hf & _).
  - vm_compute. reflexivity.
  - discriminate.
  - vm_compute. reflexivity.
  - vm_compute. reflexivity.
  - vm_compute. reflexivity.
  - vm_compute. reflexivity.
  - rewrite Hf. vm_compute. reflexivity.
Defined.

(** X10: on an input that the parser rejects, and with an output path that
    can be opened for writing and that is another path of another file than
    the input, the script exits with status 1 and the parser's error; the
    file that the output path names has been created or emptied all the
    same, no other file is touched, and standard output holds the parser's
    diagnostic. *)
Theorem main_parse_error_leaves_output_empty `{Host}
    (prog infile outfile text : string) (rest : list string)
    (files : gmap string string) (e : exn) :
  writable outfile = true → outfile ≠ infile → same_file outfile infile = false →
  files !! infile = Some text → parse_dot text = Raise e →
  let r := main (prog :: infile :: outfile :: rest) (initial_world files) in
  r.1 = Raise e ∧ exit_status r.1 = Some 1%Z
  ∧ fs r.2 = <[target files outfile := ""]> files
  ∧ stdout r.2 = parse_diagnostic text.
Proof.
  intros Hw Hne Hsame Hfile Hparse r. subst r.
  destruct (main_output_spec prog infile outfile rest files Hw) as (Hr & Hf & Hs).
  assert (read_file (<[target files outfile := ""]> files) infile = Some text) as Hread.
  { apply read_file_direct. by rewrite lookup_insert_ne by by apply target_other. }
  assert (dict_of_infile (<[target files outfile := ""]> files) (VStr infile) = Raise e)
    as Hdict.
  { unfold dict_of_infile, graph_of_infile. by rewrite Hread, Hparse. }
  rewrite Hdict in Hr, Hf. rewrite Hr. split_and!; [done | done | done |].
  rewrite Hs. unfold printed_of_infile. by rewrite Hread, Hparse.
Qed.

Lemma main_parse_error_leaves_output_empty_witness :
  fs (main (H := ticking_host) ["dotgraph.py"; "bad.dot"; "out.html"]
        (initial_world bad_files)).2
  = <["out.html" := ""]> bad_files
  ∧ stdout (main (H := ticking_host) ["dotgraph.py"; "bad.dot"; "out.html"]
              (initial_world bad_files)).2
    = abc_diagnostic "digraph {".
Proof.
  destruct (main_parse_error_leaves_output_empty (H := ticking_host)
              "dotgraph.py" "bad.dot" "out.html" "digraph {" [] bad_files
              (ParseError "syntax error"))
    as (_ & _ & Hf & Hs).
  - vm_compute. reflexivity.
  - discriminate.
  - vm_compute. reflexivity.
  - vm_compute. reflexivity.
  - vm_compute. reflexivity.
  - split; [| exact Hs]. rewrite Hf. vm_compute. reflexivity.
Defined.

(** X11: when the output path names the file of the input (the same path,
    or another path of that file) and can be opened for writing, the file
    is emptied before it is read: whatever it held, the graph is the
    parser's reading of the empty text, and the file ends up holding the
    HTML text for that graph, or nothing when the parser rejects the empty
    text. *)
Theorem main_output_over_input `{Host}
    (prog infile outfile : string) (rest : list string) (files : gmap string string) :
  writable outfile = true → is_Some (files !! infile) →
  target files outfile = infile →
  let r := main (prog :: infile :: outfile :: rest) (initial_world files) in
  let d := outcome_bind (parse_dot "") node_link_data in
  r.1 = outcome_map (λ _, ()) d
  ∧ fs r.2 = <[infile := match d with
                         | Ok d => fill (unique_id (clock 0)) (encode d)
                                     (segments_of DotGraph._template)
                         | _ => ""
                         end]> files.
Proof.
  intros Hw Hin Htarget r d. subst r.
  destruct (main_output_spec prog infile outfile rest files Hw) as (Hr & Hf & _).
  rewrite Htarget in Hr, Hf.
  assert (dict_of_infile (<[infile := ""]> files) (VStr infile) = d) as Hdict.
  { unfold dict_of_infile, graph_of_infile.
    by rewrite (read_file_direct _ infile "") by apply lookup_insert_eq. }
  rewrite Hdict in Hr, Hf. by split.
Qed.

Lemma main_output_over_input_witness :
  (main (H := ticking_host) ["dotgraph.py"; "abc.dot"; "./abc.dot"]
     (initial_world abc_files)).1
  = Raise (ParseError "syntax error")
  ∧ fs (main (H := ticking_host) ["dotgraph.py"; "abc.dot"; "./abc.dot"]
          (initial_world abc_files)).2
    = {[ "abc.dot" := "" ]}.
Proof.
  destruct (main_output_over_input (H := ticking_host) "dotgraph.py" "abc.dot" "./abc.dot"
              [] abc_files)
    as (Hr & Hf).
  - vm_compute. reflexivity.
  - vm_compute. by eexists.
  - vm_compute. reflexivity.
  - split; [rewrite Hr | rewrite Hf]; vm_compute; reflexivity.
Defined.

(** X12: without an output path and on a well-formed input, the script
    runs to its end (status 0), changes no file and prints exactly the HTML
    text of the default template for the graph of the input file. *)
Theorem main_prints_html `{Host}
    (prog infile text : string) (files : gmap string string) (g : nxgraph) (d : jvalue) :
  files !! infile = Some text → parse_dot text = Ok g → node_link_data g = Ok d →
  let r := main [prog; infile] (initial_world files) in
  r.1 = Ok () ∧ exit_status r.1 = Some 0%Z
  ∧ fs r.2 = files
  ∧ stdout r.2 = fill (unique_id (clock 0)) (encode d) (segments_of DotGraph._template).
Proof.
  intros Hfile Hparse Hd r. subst r.
  destruct (main_stdout_spec prog infile files) as (Hr & Hf & Hs).
  assert (dict_of_infile files (VStr infile) = Ok d) as Hdict.
  { unfold dict_of_infile, graph_of_infile.
    by rewrite (read_file_direct files infile text Hfile), Hparse. }
  rewrite Hdict in Hr, Hs. rewrite Hr. by split_and!.
Qed.

Lemma main_prints_html_witness :
  stdout (main (H := ticking_host) ["dotgraph.py"; "abc.dot"] (initial_world abc_files)).2
  = abc_html.
Proof.
  destruct (main_prints_html (H := ticking_host) "dotgraph.py" "abc.dot"
              abc_text abc_files abc_graph abc_dict)
    as (_ & _ & _ & Hs).
  - vm_compute. reflexivity.
  - vm_compute. reflexivity.
  - vm_compute. reflexivity.
  - rewrite Hs. vm_compute. reflexivity.
Defined.

(** X13: when the script fails without an output path, whatever the
    failure, no file has changed and no HTML text has been printed:
    standard output holds the parser's diagnostic when the parser has
    rejected the input file, and nothing otherwise. *)
Theorem main_failure_prints_no_html `{Host}
    (prog infile : string) (files : gmap string string) (e : exn) :
  (main [prog; infile] (initial_world files)).1 = Raise e →
  fs (main [prog; infile] (initial_world files)).2 = files
  ∧ stdout (main [prog; infile] (initial_world files)).2
    = match read_file files infile with
      | Some text => if is_ok (parse_dot text) then "" else parse_diagnostic text
      | None => ""
      end.
Proof.
  intros Hfail.
  destruct (main_stdout_spec prog infile files) as (Hr & Hf & Hs).
  rewrite Hfail in Hr. split; [done |].
  rewrite Hs. by destruct (dict_of_infile files (VStr infile)).
Qed.

Lemma main_failure_prints_no_html_witness :
  stdout (main (H := ticking_host) ["dotgraph.py"; "bad.dot"] (initial_world bad_files)).2
  = abc_diagnostic "digraph {"
  ∧ fs (main (H := ticking_host) ["dotgraph.py"; "bad.dot"] (initial_world bad_files)).2
    = bad_files.
Proof.
  destruct (main_failure_prints_no_html (H := ticking_host) "dotgraph.py" "bad.dot"
              bad_files (ParseError "syntax error")) as [Hf Hs].
  - vm_compute. reflexivity.
  - split; [| exact Hf]. rewrite Hs. vm_compute. reflexivity.
Defined.

(** X14: called without an input path, the script raises [IndexError] at
    [sys.argv[1]] before it constructs anything: the world is unchanged. *)
Theorem main_without_input_argument `{Host} (argv : list string) (w : world) :
  (List.length argv ≤ 1)%nat →
  main argv w = (Raise (IndexError "list index out of range"), w).
Proof.
  intros Hlen. destruct argv as [|prog [|infile argv]]; [done | done |].
  simpl in Hlen. lia.
Qed.

Lemma main_without_input_argument_witness :
  exit_status (main (H := ticking_host) ["dotgraph.py"] (initial_world abc_files)).1
  = Some 1%Z.
Proof.
  rewrite (main_without_input_argument (H := ticking_host) ["dotgraph.py"]).
  - reflexivity.
  - simpl. lia.
Defined.

(** X15: construction, with or without a template, returns an instance that
    did not exist and leaves every existing instance as it was: its
    attributes and what its views return are unchanged. *)
Theorem construction_leaves_instances `{Host}
    (infile : string) (template : option string) (w : world) :
  ∃ self w',
    DotGraph.new infile template w = (Ok self, w')
    ∧ ∀ other, is_Some (heap w !! other) →
        other ≠ self
        ∧ heap w' !! other = heap w !! other
        ∧ (DotGraph.dict other w').1 = (DotGraph.dict other w).1
        ∧ (DotGraph.json other w').1 = (DotGraph.json other w).1
        ∧ (DotGraph.html other w').1 = (DotGraph.html other w).1.
Proof.
  destruct (new_eq infile template w) as [Hfresh Hnew].
  eexists _, _. split; [exact Hnew |].
  intros other [o Ho].
  assert (other ≠ fresh (dom (heap w))) as Hne.
  { intros ->. by rewrite Hfresh in Ho. }
  assert (∀ attrs, heap (set_heap (<[fresh (dom (heap w)) := attrs]> (heap w)) w) !! other
                   = heap w !! other) as Hother.
  { intros attrs. simpl. by rewrite lookup_insert_ne. }
  split; [done |]. split; [apply Hother |]. split_and!.
  - by apply dict_frame.
  - by apply json_frame.
  - by apply html_frame.
Qed.

(** X16: with an output path that cannot be opened for writing, the script
    fails at [open], before it evaluates [dg.html]: it exits with status 1
    and the error of [open]; the clock has not been read, nothing has been
    printed and no file has changed. *)
Theorem main_output_not_writable `{Host}
    (prog infile outfile : string) (rest : list string) (files : gmap string string) :
  writable outfile = false →
  let r := main (prog :: infile :: outfile :: rest) (initial_world files) in
  r.1 = Raise (IOError outfile) ∧ exit_status r.1 = Some 1%Z
  ∧ fs r.2 = files ∧ stdout r.2 = "" ∧ ticks r.2 = 0%nat.
Proof. apply main_output_failure. Qed.

Lemma main_output_not_writable_witness :
  (main (H := ticking_host) ["dotgraph.py"; "bad.dot"; ""] (initial_world bad_files)).1
  = Raise (IOError "")
  ∧ stdout (main (H := ticking_host) ["dotgraph.py"; "bad.dot"; ""]
              (initial_world bad_files)).2 = "".
Proof.
  destruct (main_output_not_writable (H := ticking_host) "dotgraph.py" "bad.dot" ""
              [] bad_files) as (Hr & _ & _ & Hs & _).
  - vm_compute. reflexivity.
  - by split.
Defined.
